(** * jargen: schema-driven configuration validation and route-policy compilation

    A shallow embedding of [src/config_validation.py] and
    [jargen/generate_config.py], with the properties of the specification
    stated over it.

    Python values are modelled as data (YAML documents: scalars, lists and
    insertion-ordered mappings with string keys), exceptions as an error
    result, the [config] line buffer of the compilers as a list of strings and
    the file written by [writeConfig] as an explicit file-system state. *)

From Stdlib Require Import List String Ascii ZArith NArith Lia Bool Permutation.
From Stdlib Require Import DecimalString DecimalN DecimalZ.
Import ListNotations.

Set Warnings "-register-all".

Local Open Scope list_scope.
Local Open Scope string_scope.

(** [++] is string concatenation below; lists are appended with [+++]. *)
Notation "l +++ m" := (List.app l m) (at level 60, right associativity).

(* ================================================================= *)
(** ** Exceptions and results *)

Module Py.

(** The exceptions that the modelled code can raise. *)
Inductive exn : Type :=
| KeyError
| TypeError
| IndexError
| AttributeError
| ReError                                   (* re.error: the pattern does not compile *)
| NotImplementedError (msg : string)
| ConfigValidationTestFailedError (test : string).

Inductive result (A : Type) : Type :=
| Ok (a : A)
| Raise (e : exn).

Arguments Ok {A} a.
Arguments Raise {A} e.

Definition bind {A B : Type} (m : result A) (k : A -> result B) : result B :=
  match m with
  | Ok a => k a
  | Raise e => Raise e
  end.

(** [mapM f l] evaluates [f] on the elements of [l] from left to right and
    stops at the first exception: a list comprehension. *)
Fixpoint mapM {A B : Type} (f : A -> result B) (l : list A) : result (list B) :=
  match l with
  | [] => Ok []
  | x :: rest =>
      match f x with
      | Raise e => Raise e
      | Ok y =>
          match mapM f rest with
          | Raise e => Raise e
          | Ok ys => Ok (y :: ys)
          end
      end
  end.

(** Python's [all] on a list of booleans. *)
Definition all (l : list bool) : bool := forallb (fun b => b) l.

End Py.

Export Py.

Notation "x <- m ;; k" := (bind m (fun x => k))
  (at level 61, m at next level, right associativity).

(* ================================================================= *)
(** ** Strings *)

Module Str.

(** [sep.join(parts)] *)
Fixpoint join (sep : string) (parts : list string) : string :=
  match parts with
  | [] => ""
  | [p] => p
  | p :: rest => p ++ sep ++ join sep rest
  end.

(** [s.split(c)] for a one-character separator: the pieces between the
    occurrences of [c], never an empty list. *)
Fixpoint split (c : ascii) (s : string) : list string :=
  match s with
  | EmptyString => [""]
  | String a rest =>
      if Ascii.eqb a c then "" :: split c rest
      else
        match split c rest with
        | [] => [String a ""]
        | p :: ps => String a p :: ps
        end
  end.

(** [needle in haystack] on two strings. *)
Fixpoint contains (needle haystack : string) : bool :=
  String.prefix needle haystack
  || match haystack with
     | EmptyString => false
     | String _ rest => contains needle rest
     end.

(** The characters of a string, each as a one-character string: what
    iterating over a [str] yields. *)
Fixpoint chars (s : string) : list string :=
  match s with
  | EmptyString => []
  | String a rest => String a "" :: chars rest
  end.

(** Truth value of a string: non-empty. *)
Definition truthy (s : string) : bool :=
  match s with
  | EmptyString => false
  | String _ _ => true
  end.

(** [str(n)] for a non-negative integer. *)
Definition of_N (n : N) : string := NilEmpty.string_of_uint (N.to_uint n).

(** [str(z)] for an integer. *)
Definition of_Z (z : Z) : string := NilEmpty.string_of_int (Z.to_int z).

Definition of_nat (n : nat) : string := of_N (N.of_nat n).

Definition has_char (c : ascii) (s : string) : bool :=
  existsb (Ascii.eqb c) (list_ascii_of_string s).

End Str.

(* ================================================================= *)
(** ** Regular expressions

    [re.fullmatch] belongs to Python's library, not to this repository.  The
    validator is therefore parameterised over the matcher (see the section
    [Validator] below); this module supplies one matcher, for a fragment of
    the pattern syntax (literals, [.], bracket classes, [\d \w \s], groups,
    alternation and one postfix operator [* + ?] after an atom), so that the
    validator can be run on concrete documents.  A pattern outside the
    fragment (anchors, counted repetition, a second postfix operator, a
    letter or digit escape inside brackets, ...) is reported like one that
    does not compile. *)

Module Re.

Inductive regex : Type :=
| Void
| Eps
| Lit (c : ascii)
| Dot
| Class (negated : bool) (ranges : list (ascii * ascii))
| Cat (r s : regex)
| Alt (r s : regex)
| Star (r : regex).

Definition in_ranges (c : ascii) (ranges : list (ascii * ascii)) : bool :=
  existsb
    (fun range : ascii * ascii =>
       let (lo, hi) := range in
       (nat_of_ascii lo <=? nat_of_ascii c)%nat
       && (nat_of_ascii c <=? nat_of_ascii hi)%nat)
    ranges.

Definition newline : ascii := ascii_of_nat 10.

Fixpoint nullable (r : regex) : bool :=
  match r with
  | Void | Lit _ | Dot | Class _ _ => false
  | Eps | Star _ => true
  | Cat r s => nullable r && nullable s
  | Alt r s => nullable r || nullable s
  end.

(** Brzozowski derivative of [r] by the character [c]. *)
Fixpoint deriv (c : ascii) (r : regex) : regex :=
  match r with
  | Void | Eps => Void
  | Lit d => if Ascii.eqb c d then Eps else Void
  | Dot => if Ascii.eqb c newline then Void else Eps
  | Class negated ranges =>
      if Bool.eqb (in_ranges c ranges) negated then Void else Eps
  | Cat r s =>
      if nullable r then Alt (Cat (deriv c r) s) (deriv c s)
      else Cat (deriv c r) s
  | Alt r s => Alt (deriv c r) (deriv c s)
  | Star r => Cat (deriv c r) (Star r)
  end.

Fixpoint matches (r : regex) (s : string) : bool :=
  match s with
  | EmptyString => nullable r
  | String c rest => matches (deriv c r) rest
  end.

Definition digit : regex := Class false [("0", "9")]%char.
Definition word : regex :=
  Class false [("a", "z"); ("A", "Z"); ("0", "9"); ("_", "_")]%char.
Definition space : regex :=
  Class false [(" ", " "); (ascii_of_nat 9, ascii_of_nat 13)]%char.

Definition escape (c : ascii) : option regex :=
  if Ascii.eqb c "d" then Some digit
  else if Ascii.eqb c "w" then Some word
  else if Ascii.eqb c "s" then Some space
  else if in_ranges c [("a", "z"); ("A", "Z"); ("0", "9")]%char then None
  else Some (Lit c).

(** The items of a bracket class, up to the closing bracket. *)
Fixpoint parse_class (s : list ascii) (acc : list (ascii * ascii))
  : option (list (ascii * ascii) * list ascii) :=
  match s with
  | [] => None
  | c :: rest =>
      if Ascii.eqb c "]" then Some (rev acc, rest)
      else if Ascii.eqb c "\" then
        match rest with
        | e :: rest' =>
            if in_ranges e [("a", "z"); ("A", "Z"); ("0", "9")]%char then None
            else parse_class rest' ((e, e) :: acc)
        | [] => None
        end
      else
        match rest with
        | dash :: hi :: rest' =>
            if Ascii.eqb dash "-" && negb (Ascii.eqb hi "]")
            then parse_class rest' ((c, hi) :: acc)
            else parse_class rest ((c, c) :: acc)
        | _ => parse_class rest ((c, c) :: acc)
        end
  end.

Definition is_quantifier (c : ascii) : bool :=
  existsb (Ascii.eqb c) ["*"; "+"; "?"; "{"]%char.

(** An atom with its postfix operator, if any; a second operator after it
    is outside the fragment. *)
Definition postfix (r : regex) (s : list ascii) : option (regex * list ascii) :=
  let quantified (r' : regex) (rest : list ascii) :=
    match rest with
    | c' :: _ => if is_quantifier c' then None else Some (r', rest)
    | [] => Some (r', rest)
    end in
  match s with
  | c :: rest =>
      if Ascii.eqb c "*" then quantified (Star r) rest
      else if Ascii.eqb c "+" then quantified (Cat r (Star r)) rest
      else if Ascii.eqb c "?" then quantified (Alt Eps r) rest
      else Some (r, s)
  | [] => Some (r, s)
  end.

Inductive level : Type := LAlt | LCat | LAtom.

Definition unsupported (c : ascii) : bool :=
  existsb (Ascii.eqb c) ["*"; "+"; "?"; "{"; "}"; "^"; "$"; "]"]%char.

Fixpoint parse (fuel : nat) (lv : level) (s : list ascii)
  : option (regex * list ascii) :=
  match fuel with
  | O => None
  | S fuel =>
      match lv with
      | LAlt =>
          match parse fuel LCat s with
          | Some (r, c :: rest) =>
              if Ascii.eqb c "|" then
                match parse fuel LAlt rest with
                | Some (r', rest') => Some (Alt r r', rest')
                | None => None
                end
              else Some (r, c :: rest)
          | other => other
          end
      | LCat =>
          match s with
          | [] => Some (Eps, s)
          | c :: _ =>
              if Ascii.eqb c "|" || Ascii.eqb c ")" then Some (Eps, s)
              else
                match parse fuel LAtom s with
                | Some (r, rest) =>
                    match parse fuel LCat rest with
                    | Some (r', rest') => Some (Cat r r', rest')
                    | None => None
                    end
                | None => None
                end
          end
      | LAtom =>
          match s with
          | [] => None
          | c :: rest =>
              if Ascii.eqb c "(" then
                match parse fuel LAlt rest with
                | Some (r, c' :: rest') =>
                    if Ascii.eqb c' ")" then postfix r rest' else None
                | _ => None
                end
              else if Ascii.eqb c "[" then
                let (negated, body) :=
                  match rest with
                  | c' :: rest' =>
                      if Ascii.eqb c' "^" then (true, rest') else (false, rest)
                  | [] => (false, rest)
                  end in
                match parse_class body [] with
                | Some (ranges, rest') => postfix (Class negated ranges) rest'
                | None => None
                end
              else if Ascii.eqb c "." then postfix Dot rest
              else if Ascii.eqb c "\" then
                match rest with
                | e :: rest' =>
                    match escape e with
                    | Some r => postfix r rest'
                    | None => None
                    end
                | [] => None
                end
              else if unsupported c then None
              else postfix (Lit c) rest
          end
      end
  end.

Definition compile (pattern : string) : option regex :=
  let input := list_ascii_of_string pattern in
  match parse (3 * List.length input + 3) LAlt input with
  | Some (r, []) => Some r
  | _ => None
  end.

(** [re.fullmatch(pattern, s)] as a truth value; [None] when the pattern
    does not compile. *)
Definition fullmatch (pattern s : string) : option bool :=
  match compile pattern with
  | Some r => Some (matches r s)
  | None => None
  end.

End Re.

(* ================================================================= *)
(** ** Python values

    The documents handed to the validator come from [yaml.safe_load]: scalars,
    lists, and mappings.  A mapping is kept as the list of its entries in
    insertion order, which is the order in which Python iterates over it; its
    keys are strings ([dict[str, Any]] in the source) and occur once each.
    Floating-point scalars are left out. *)

Module Value.

Inductive scalar : Type :=
| SNone
| SBool (b : bool)
| SInt (z : Z)
| SStr (s : string).

Inductive pyval : Type :=
| VScalar (x : scalar)
| VList (items : list pyval)
| VDict (entries : list (string * pyval)).

Definition vnone : pyval := VScalar SNone.
Definition vbool (b : bool) : pyval := VScalar (SBool b).
Definition vint (z : Z) : pyval := VScalar (SInt z).
Definition vstr (s : string) : pyval := VScalar (SStr s).

Inductive pytype : Type := NoneType | bool_t | int_t | str_t | list_t | dict_t.

Definition pytype_eqb (a b : pytype) : bool :=
  match a, b with
  | NoneType, NoneType | bool_t, bool_t | int_t, int_t
  | str_t, str_t | list_t, list_t | dict_t, dict_t => true
  | _, _ => false
  end.

(** [type(v)] *)
Definition type_of (v : pyval) : pytype :=
  match v with
  | VScalar SNone => NoneType
  | VScalar (SBool _) => bool_t
  | VScalar (SInt _) => int_t
  | VScalar (SStr _) => str_t
  | VList _ => list_t
  | VDict _ => dict_t
  end.

(** [isinstance(v, t)]: [bool] is a subclass of [int]. *)
Definition isinstance (v : pyval) (t : pytype) : bool :=
  pytype_eqb (type_of v) t
  || (pytype_eqb (type_of v) bool_t && pytype_eqb t int_t).

(** [isinstance(v, (dict, list))] *)
Definition is_container (v : pyval) : bool :=
  isinstance v dict_t || isinstance v list_t.

(** [str(x)] on a scalar. *)
Definition str (x : scalar) : string :=
  match x with
  | SNone => "None"
  | SBool true => "True"
  | SBool false => "False"
  | SInt z => Str.of_Z z
  | SStr s => s
  end.

(** [a == b] on scalars: [True == 1] and [False == 0]. *)
Definition scalar_eqb (a b : scalar) : bool :=
  match a, b with
  | SNone, SNone => true
  | SStr s, SStr t => String.eqb s t
  | SBool x, SBool y => Bool.eqb x y
  | SInt x, SInt y => Z.eqb x y
  | SBool x, SInt y | SInt y, SBool x => Z.eqb (Z.b2z x) y
  | _, _ => false
  end.

(** Truth value of an object, as [not] and [if] take it. *)
Definition truthy (v : pyval) : bool :=
  match v with
  | VScalar SNone => false
  | VScalar (SBool b) => b
  | VScalar (SInt z) => negb (Z.eqb z 0)
  | VScalar (SStr s) => Str.truthy s
  | VList [] => false
  | VList (_ :: _) => true
  | VDict [] => false
  | VDict (_ :: _) => true
  end.

Fixpoint dict_get (entries : list (string * pyval)) (key : string) : option pyval :=
  match entries with
  | [] => None
  | (k, v) :: rest => if String.eqb k key then Some v else dict_get rest key
  end.

Definition dict_has (entries : list (string * pyval)) (key : string) : bool :=
  match dict_get entries key with
  | Some _ => true
  | None => false
  end.

Definition keys (entries : list (string * pyval)) : list string := map fst entries.

(** [v[key]] for a string key. *)
Definition getitem (v : pyval) (key : string) : result pyval :=
  match v with
  | VDict entries =>
      match dict_get entries key with
      | Some x => Ok x
      | None => Raise KeyError
      end
  | VList _ => Raise TypeError          (* list indices must be integers *)
  | VScalar _ => Raise TypeError        (* str indices must be integers; not subscriptable *)
  end.

(** [v[0]] *)
Definition getitem0 (v : pyval) : result pyval :=
  match v with
  | VList [] => Raise IndexError
  | VList (x :: _) => Ok x
  | VDict _ => Raise KeyError           (* no integer key in a mapping with string keys *)
  | VScalar (SStr EmptyString) => Raise IndexError
  | VScalar (SStr (String c _)) => Ok (vstr (String c ""))
  | VScalar _ => Raise TypeError
  end.

(** [key in container] for a string [key]: membership among the keys of a
    mapping, among the elements of a list, substring of a string. *)
Definition key_in (key : string) (container : pyval) : result bool :=
  match container with
  | VDict entries => Ok (dict_has entries key)
  | VList items =>
      Ok (existsb
            (fun x => match x with
                      | VScalar (SStr s) => String.eqb key s
                      | _ => false
                      end)
            items)
  | VScalar (SStr s) => Ok (Str.contains key s)
  | VScalar _ => Raise TypeError        (* argument is not iterable *)
  end.

(** [x in entries] for a mapping: [x] is hashed first. *)
Definition in_dict (x : pyval) (entries : list (string * pyval)) : result bool :=
  match x with
  | VScalar (SStr key) => Ok (dict_has entries key)
  | VScalar _ => Ok false
  | VList _ | VDict _ => Raise TypeError  (* unhashable *)
  end.

(** The elements that [for x in v] goes through. *)
Definition iter (v : pyval) : result (list pyval) :=
  match v with
  | VList items => Ok items
  | VDict entries => Ok (map vstr (keys entries))
  | VScalar (SStr s) => Ok (map vstr (Str.chars s))
  | VScalar _ => Raise TypeError
  end.

(** Hashing for [set(...)]: lists and mappings are unhashable. *)
Definition hashable (v : pyval) : result scalar :=
  match v with
  | VScalar x => Ok x
  | VList _ | VDict _ => Raise TypeError
  end.

(** [tuple(d.items())], hashed: [d] must have [items], hence be a mapping,
    and the values must be hashable. *)
Definition items_tuple (d : pyval) : result (list (string * scalar)) :=
  match d with
  | VDict entries =>
      mapM (fun kv : string * pyval =>
              match hashable (snd kv) with
              | Ok x => Ok (fst kv, x)
              | Raise e => Raise e
              end)
           entries
  | VList _ | VScalar _ => Raise AttributeError
  end.

(** Equality of two such tuples: position by position. *)
Fixpoint tuple_eqb (a b : list (string * scalar)) : bool :=
  match a, b with
  | [], [] => true
  | (k, x) :: a', (k', x') :: b' =>
      String.eqb k k' && scalar_eqb x x' && tuple_eqb a' b'
  | _, _ => false
  end.

(** A set as the list of its members, each added unless an equal one is
    already there. *)
Definition set_add {A : Type} (eqb : A -> A -> bool) (s : list A) (x : A) : list A :=
  if existsb (eqb x) s then s else s +++ [x].

Definition set_of {A : Type} (eqb : A -> A -> bool) (l : list A) : list A :=
  fold_left (set_add eqb) l [].

End Value.

Export Value.

(* ================================================================= *)
(** ** config_validation.py *)

Section Validator.

(** [re.fullmatch pattern s]: [Some true] for a match object, [Some false]
    for [None], and [None] when the pattern is rejected. *)
Variable re_fullmatch : string -> string -> option bool.

(** [fullmatch(pattern, s)] with [pattern] read from a document. *)
Definition fullmatch (pattern : pyval) (s : string) : result bool :=
  match pattern with
  | VScalar (SStr p) =>
      match re_fullmatch p s with
      | Some b => Ok b
      | None => Raise ReError
      end
  | _ => Raise TypeError    (* first argument must be string or compiled pattern *)
  end.

(** The nested [basic_validation_dict], with [config] a mapping. *)
Definition basic_validation_dict (config : list (string * pyval)) (schema : pyval)
  : result bool :=
  (* Check to see whether there are any invalid keys *)
  allowed <- mapM (fun x => key_in x schema) (keys config) ;;
  if negb (all allowed) then Ok false
  else
    (* Check to see whether all required keys are present *)
    required <- getitem schema "required" ;;
    names <- iter required ;;
    present <- mapM (fun x => in_dict x config) names ;;
    if negb (all present) then Ok false
    else Ok true.

(** The nested [basic_validation_list], with [config] a list. *)
Definition basic_validation_list (config : list pyval) : result bool :=
  match mapM hashable config with
  | Ok members =>
      if negb (List.length (set_of scalar_eqb members) =? List.length config)%nat
      then Ok false else Ok true
  | Raise TypeError =>
      tuples <- mapM items_tuple config ;;
      if negb (List.length (set_of tuple_eqb tuples) =? List.length config)%nat
      then Ok false else Ok true
  | Raise e => Raise e
  end.

(** The body of the loop after [dataContent], [dataSchema] and [dataType]
    are bound (lines 49 to 57): [Ok false] where the source returns [False],
    [Ok true] where it goes on to the next item.  [caller] is the recursive
    call. *)
Definition check_item (caller : pyval -> pyval -> pyval -> result bool)
    (dataContent dataSchema dataType : pyval) : result bool :=
  if negb (isinstance dataContent (type_of dataType)) then Ok false
  else if is_container dataType then
    match caller dataContent dataSchema dataType with
    | Raise e => Raise e
    | Ok ok => if negb ok then Ok false else Ok true
    end
  else
    match getitem dataSchema "regex" with
    | Raise e => Raise e
    | Ok pattern =>
        match dataContent with
        | VScalar x =>
            match fullmatch pattern (str x) with
            | Raise e => Raise e
            | Ok m => if negb m then Ok false else Ok true
            end
        | VList _ | VDict _ =>
            (* not reached: [dataType] is a scalar here and [dataContent]
               an instance of its type, see [leaf_content_scalar] *)
            Ok false
        end
    end.

Fixpoint basic_validation_caller (config schema types : pyval) {struct config}
  : result bool :=
  match config with
  | VDict entries =>
      match basic_validation_dict entries schema with
      | Raise e => Raise e
      | Ok false => Ok false
      | Ok true =>
          (fix loop (items : list (string * pyval)) : result bool :=
             match items with
             | [] => Ok true
             | (item, dataContent) :: rest =>
                 match getitem schema item with
                 | Raise e => Raise e
                 | Ok dataSchema =>
                     match getitem types item with
                     | Raise e => Raise e
                     | Ok dataType =>
                         match check_item basic_validation_caller
                                 dataContent dataSchema dataType with
                         | Raise e => Raise e
                         | Ok false => Ok false
                         | Ok true => loop rest
                         end
                     end
                 end
             end) entries
      end
  | VList elements =>
      match basic_validation_list elements with
      | Raise e => Raise e
      | Ok false => Ok false
      | Ok true =>
          (fix loop (items : list pyval) : result bool :=
             match items with
             | [] => Ok true
             | dataContent :: rest =>
                 match getitem0 schema with
                 | Raise e => Raise e
                 | Ok dataSchema =>
                     match getitem0 types with
                     | Raise e => Raise e
                     | Ok dataType =>
                         match check_item basic_validation_caller
                                 dataContent dataSchema dataType with
                         | Raise e => Raise e
                         | Ok false => Ok false
                         | Ok true => loop rest
                         end
                     end
                 end
             end) elements
      end
  | VScalar _ => Raise KeyError       (* subroutines[type(config)] *)
  end.

(** [validate_base(key)(f)]: the decorated section validator.  It hands the
    section of [config] to [f] under all three parameter names. *)
Definition validate_base (key : string)
    (f : pyval -> pyval -> pyval -> result pyval)
    (config schema types : pyval) : result pyval :=
  config_section <- getitem config key ;;
  schema_section <- getitem schema key ;;
  types_section <- getitem types key ;;
  ok <- basic_validation_caller config_section schema_section types_section ;;
  if negb ok then Ok (vbool false)
  else f config_section config_section config_section.

(** A function whose body is [pass] returns [None]. *)
Definition pass (config schema types : pyval) : result pyval := Ok vnone.

Definition validate_basic := validate_base "basic" pass.
Definition validate_mrt := validate_base "mrt" pass.
Definition validate_prefixes := validate_base "prefixes" pass.
Definition validate_bgp := validate_base "bgp" pass.
Definition validate_ospf := validate_base "ospf" pass.
Definition validate_device := validate_base "device" pass.
Definition validate_container := validate_base "container" pass.
Definition validate_policy := validate_base "policy" pass.

Definition enabledTests : list (string * (pyval -> pyval -> pyval -> result pyval)) :=
  [("Test to validate basic configuration", validate_basic)].

(** The loop of [validateConfig] over a table of tests. *)
Fixpoint run_tests (tests : list (string * (pyval -> pyval -> pyval -> result pyval)))
    (config schema types : pyval) : result unit :=
  match tests with
  | [] => Ok tt
  | (test, validator) :: rest =>
      match validator config schema types with
      | Raise e => Raise e
      | Ok verdict =>
          if negb (truthy verdict)
          then Raise (ConfigValidationTestFailedError test)
          else run_tests rest config schema types
      end
  end.

(** [validateConfig] returns [None] ([Ok tt]) or raises. *)
Definition validateConfig (config schema types : pyval) : result unit :=
  run_tests enabledTests config schema types.

End Validator.

(* ================================================================= *)
(** ** Routes *)

Module Net.

(** [ipaddress.IPv4Network]: a network address of 32 bits and a prefix
    length. *)
Record IPv4Network : Type := {
  network_address : N;
  prefixlen : N
}.

Definition octet (address : N) (i : N) : N :=
  N.land (N.shiftr address (8 * i)) 255.

Definition dotted (address : N) : string :=
  Str.of_N (octet address 3) ++ "." ++ Str.of_N (octet address 2) ++ "."
  ++ Str.of_N (octet address 1) ++ "." ++ Str.of_N (octet address 0).

Definition netmask (len : N) : N := N.shiftl (N.ones len) (32 - len).

(** [str(network)], e.g. 10.0.0.0/24 *)
Definition to_str (n : IPv4Network) : string :=
  dotted (network_address n) ++ "/" ++ Str.of_N (prefixlen n).

(** [network.with_netmask], e.g. 10.0.0.0/255.255.255.0 *)
Definition with_netmask (n : IPv4Network) : string :=
  dotted (network_address n) ++ "/" ++ dotted (netmask (prefixlen n)).

Definition ipv4 (a b c d len : N) : IPv4Network :=
  {| network_address := N.shiftl a 24 + N.shiftl b 16 + N.shiftl c 8 + d;
     prefixlen := len |}.

End Net.

Export Net.

(** Modelled from the spec: [jargen.objects.Route] is imported by
    [generate_config.py] and is not among the sources.  A route has a
    [network], an [aspath] (ordered sequence of AS numbers, may be empty),
    [communities] (sequence of community strings, may be empty) and an
    [origin] ([igp], [egp] or [incomplete], kept as the string the compilers
    compare and print). *)
Record Route : Type := {
  network : IPv4Network;
  aspath : list N;
  communities : list string;
  origin : string
}.

(** Modelled from the spec: [Route.aspath_as_str], the AS path with each AS
    number as its decimal string. *)
Definition aspath_as_str (route : Route) : list string :=
  map Str.of_N (aspath route).

(* ================================================================= *)
(** ** generate_config.py *)

Definition newline : string := String (ascii_of_nat 10) "".
Definition dquote : string := String (ascii_of_nat 34) "".

(** The files on disk, most recent write first.  A file is named by the
    path string it was opened with; the directory is taken to exist. *)
Definition filesystem : Type := list (string * string).

Definition writeConfig (path config fileName : string) (fs : filesystem) : filesystem :=
  (path ++ "/" ++ fileName, config) :: fs.

(** [enumerate(l)] *)
Definition enumerate {A : Type} (l : list A) : list (nat * A) :=
  combine (seq 0 (List.length l)) l.

Module Ios.

(** The key of [routeDict]: a tuple of three strings. *)
Definition policy : Type := string * string * string.

Definition policy_eqb (a b : policy) : bool :=
  let '(a0, a1, a2) := a in
  let '(b0, b1, b2) := b in
  String.eqb a0 b0 && String.eqb a1 b1 && String.eqb a2 b2.

Definition policy_of (route : Route) : policy :=
  (Str.join " " (aspath_as_str route), Str.join " " (communities route), origin route).

(** [routeDict[key].append(value)] on a [defaultdict(list)]: a new key goes
    to the end. *)
Fixpoint append_to (routeDict : list (policy * list IPv4Network))
    (key : policy) (value : IPv4Network) : list (policy * list IPv4Network) :=
  match routeDict with
  | [] => [(key, [value])]
  | (k, values) :: rest =>
      if policy_eqb k key then (k, values +++ [value]) :: rest
      else (k, values) :: append_to rest key value
  end.

(** Identify routes with identical policy configurations *)
Definition group_routes (routes : list Route) : list (policy * list IPv4Network) :=
  fold_left (fun routeDict route => append_to routeDict (policy_of route) (network route))
            routes [].

Definition static_route (baseRouteCommand : string) (route : Route) : string :=
  baseRouteCommand ++ " "
  ++ Str.join " " (Str.split "/" (with_netmask (network route))) ++ " null0".

Definition prefix_list_entry (prefixListName : string) (entry : nat * IPv4Network) : string :=
  let (prefixIndex, prefixValue) := entry in
  "ip prefix-list " ++ prefixListName ++ " seq " ++ Str.of_nat (prefixIndex + 1)
  ++ " permit " ++ to_str prefixValue.

(** The lines appended for one entry of [routeDict]. *)
Definition group_lines (localAS : Z) (group : nat * (policy * list IPv4Network))
  : list string :=
  let '(index, (value, networks)) := group in
  let '(value0, value1, value2) := value in
  let prefixListName := "ROUTEGEN-PL" ++ Str.of_nat (index + 1) in
  map (prefix_list_entry prefixListName) (enumerate networks)
  +++ [ "route-map ROUTEGEN-RM permit " ++ Str.of_nat (index + 1);
        "  match ip address prefix-list " ++ prefixListName;
        if Str.truthy value0 then "  set as-path prepend " ++ value0 else "";
        if Str.truthy value1 then "  set community add " ++ value1 else "";
        if negb (String.eqb value2 "igp") then "  set origin " ++ value2 else "" ]
  +++ (if (localAS >? 0)%Z
       then [ "router bgp " ++ Str.of_Z localAS;
              "redistribute static route-map ROUTEGEN-RM" ]
       else []).

(** The list [config] when the loops are over. *)
Definition config_lines (routes : list Route) (localAS : Z) (vrf : string) : list string :=
  let baseRouteCommand := if Str.truthy vrf then "ip route vrf " ++ vrf else "ip route" in
  map (static_route baseRouteCommand) routes
  +++ flat_map (group_lines localAS) (enumerate (group_routes routes)).

(** The text handed to [writeConfig]. *)
Definition config_text (routes : list Route) (localAS : Z) (vrf : string) : string :=
  Str.join newline (filter Str.truthy (config_lines routes localAS vrf)).

(** Generate route/policy configurations for Cisco IOS and IOS-XE platforms *)
Definition config_ios (routes : list Route) (path : string) (localAS : Z) (vrf : string)
    (fs : filesystem) : filesystem :=
  writeConfig path (config_text routes localAS vrf) "config.txt" fs.

End Ios.

(** Generate route/policy configuration for Cisco IOS-XR-based platforms *)
Definition config_iosxr : result unit :=
  Raise (NotImplementedError "IOS-XR configuration generation is not implemented yet.").

Module Junos.

Definition basePolicyCommand : string :=
  "set policy-options policy-statement ROUTEGEN-POLICY term 1".

Definition baseCommand (vrf : string) : string :=
  if Str.truthy vrf then "set routing-instances " ++ vrf else "set".

Definition baseRouteCommand (vrf : string) : string :=
  Str.join " " [baseCommand vrf; "routing-options static route"].

(** The value of [command] when a route's line is appended. *)
Definition route_command (vrf : string) (route : Route) : string :=
  let command := baseRouteCommand vrf ++ " " ++ to_str (network route) ++ " discard" in
  let command :=
    command ++ match communities route with
               | [] => ""
               | _ :: _ => " community [ " ++ Str.join " " (communities route) ++ " ]"
               end in
  let command :=
    command ++ match aspath route with
               | [] => ""
               | _ :: _ => " as-path path " ++ dquote
                           ++ Str.join " " (aspath_as_str route) ++ dquote
               end in
  command ++ (if negb (String.eqb (origin route) "igp")
              then " as-path origin " ++ origin route else "").

(** One turn of the loop over [routes] on the variables [config] and
    [command]. *)
Definition route_step (vrf : string) (state : list string * string) (route : Route)
  : list string * string :=
  let command := route_command vrf route in
  (fst state +++ [command], command).

(** The variables [config] and [command] just before [writeConfig]. *)
Definition final_state (routes : list Route) (vrf bgpGroup : string) : list string * string :=
  let '(config, command) := fold_left (route_step vrf) routes ([], "") in
  let config := config +++ [basePolicyCommand ++ " from protocol static"] in
  let config := config +++ [basePolicyCommand ++ " then accept"] in
  let command :=
    if Str.truthy bgpGroup
    then command ++ baseCommand vrf ++ " protocols bgp group " ++ bgpGroup
                 ++ " export ROUTEGEN-POLICY"
    else command in
  (config, command).

Definition config_text (routes : list Route) (vrf bgpGroup : string) : string :=
  Str.join newline (fst (final_state routes vrf bgpGroup)).

(** Generate route/policy configurations for Juniper Junos-based platforms *)
Definition config_junos (routes : list Route) (path vrf bgpGroup : string)
    (fs : filesystem) : filesystem :=
  writeConfig path (config_text routes vrf bgpGroup) "config.txt" fs.

End Junos.

(** The functions that a platform name can select. *)
Inductive generator : Type :=
| config_ios_fn
| config_iosxr_fn
| config_junos_fn
| config_container_fn.

Definition platforms : list (string * generator) :=
  [("ios", config_ios_fn); ("junos", config_junos_fn); ("container", config_container_fn)].

Fixpoint lookup {A : Type} (table : list (string * A)) (name : string) : option A :=
  match table with
  | [] => None
  | (k, v) :: rest => if String.eqb k name then Some v else lookup rest name
  end.

(* ================================================================= *)
(** ** Notions used by the properties *)

(** The policy attributes of a route as the specification compares them. *)
Definition attributes (route : Route) : list N * list string * string :=
  (aspath route, communities route, origin route).

Definition attributes_eq_dec (a b : list N * list string * string) : {a = b} + {a <> b}.
Proof.
  decide equality; [apply string_dec|].
  decide equality; [apply (list_eq_dec string_dec)|apply (list_eq_dec N.eq_dec)].
Defined.

(** The distinct [(aspath, communities, origin)] triples of a route list. *)
Definition distinct_attributes (routes : list Route) : list (list N * list string * string) :=
  nodup attributes_eq_dec (map attributes routes).

Definition blank_free (s : string) : Prop := Str.has_char " " s = false.

(** The key of [routeDict] computed from a triple of attributes. *)
Definition key_of_attributes (a : list N * list string * string) : Ios.policy :=
  let '(path, comms, org) := a in
  (Str.join " " (map Str.of_N path), Str.join " " comms, org).

(** A community string as BGP writes it: not empty and without a blank. *)
Definition community_ok (c : string) : bool :=
  Str.truthy c && negb (Str.has_char " " c).

Definition communities_ok (route : Route) : bool :=
  forallb community_ok (communities route).

(** The distinct keys of a list in the order of their first occurrence. *)
Definition first_seen (keys : list Ios.policy) : list Ios.policy :=
  set_of Ios.policy_eqb keys.

(** The networks of the routes that carry the key [k], in input order. *)
Definition members (routes : list Route) (k : Ios.policy) : list IPv4Network :=
  map network (filter (fun route => Ios.policy_eqb (Ios.policy_of route) k) routes).

(** The partition of the specification (4.4, steps 2 and 3): one group for
    each distinct key, in first-seen order, holding the networks of the
    routes with that key in input order. *)
Definition groups_by_key (routes : list Route) : list (Ios.policy * list IPv4Network) :=
  map (fun k => (k, members routes k)) (first_seen (map Ios.policy_of routes)).

(** The prefix-list lines that the specification asks for (4.4, step 3):
    for the group of index [i], counted from 1 in first-seen order of the
    keys, one entry in the list ROUTEGEN-PL[i] for each network of the group,
    numbered from 1 in input order. *)
Definition prefix_list_lines (routes : list Route) : list string :=
  flat_map
    (fun ik : nat * Ios.policy =>
       map (fun jn : nat * IPv4Network =>
              "ip prefix-list ROUTEGEN-PL" ++ Str.of_nat (fst ik + 1)
              ++ " seq " ++ Str.of_nat (fst jn + 1)
              ++ " permit " ++ to_str (snd jn))
           (enumerate (members routes (snd ik))))
    (enumerate (first_seen (map Ios.policy_of routes))).

(** The route-map clauses that the specification asks for (4.4, step 4):
    one clause for each group, numbered like the group and matching on the
    prefix-list of the group. *)
Definition route_map_lines (routes : list Route) : list string :=
  flat_map
    (fun ik : nat * Ios.policy =>
       [ "route-map ROUTEGEN-RM permit " ++ Str.of_nat (fst ik + 1);
         "  match ip address prefix-list ROUTEGEN-PL" ++ Str.of_nat (fst ik + 1) ])
    (enumerate (first_seen (map Ios.policy_of routes))).

(** A line that opens a route-map clause or is its match statement. *)
Definition route_map_line (line : string) : bool :=
  String.prefix "route-map " line || String.prefix "  match " line.

(** The lines of a configuration that start with [start]. *)
Definition count_lines (start : string) (lines : list string) : nat :=
  List.length (filter (String.prefix start) lines).

(** The regex that a leaf of the type tree could carry: such a leaf is a
    scalar, hence at most the pattern itself. *)
Definition leaf_regex (dataType : pyval) : option string :=
  match dataType with
  | VScalar (SStr pattern) => Some pattern
  | _ => None
  end.

(** The mapping with the given entries, all of them scalars. *)
Definition dict_of (entries : list (string * scalar)) : pyval :=
  VDict (map (fun kv : string * scalar => (fst kv, VScalar (snd kv))) entries).

(* ================================================================= *)
(** ** Documents and route lists of the examples *)

Module Examples.

(** A [basic] section with two leaves, its schema and its type template. *)
Definition basic_section : pyval :=
  VDict [("hostname", vstr "edge1"); ("asn", vint 65000)].

Definition basic_schema : pyval :=
  VDict [("required", VList [vstr "hostname"]);
         ("hostname", VDict [("regex", vstr "[a-z0-9-]+")]);
         ("asn", VDict [("regex", vstr "[0-9]+")])].

Definition basic_types : pyval :=
  VDict [("hostname", vstr ""); ("asn", vint 0)].

Definition config : pyval := VDict [("basic", basic_section)].
Definition schema : pyval := VDict [("basic", basic_schema)].
Definition types : pyval := VDict [("basic", basic_types)].

(** A leaf of the schema tree with its regex. *)
Definition regex_node (pattern : string) : pyval := VDict [("regex", vstr pattern)].

(** Two mappings with the same entries in a different key order. *)
Definition peer_entries : list (string * pyval) :=
  [("address", vstr "192.0.2.1"); ("asn", vint 65001)].
Definition peer_ab : pyval := VDict peer_entries.
Definition peer_ba : pyval := VDict (rev peer_entries).

Definition peer_schema : pyval :=
  VDict [("required", VList [vstr "address"; vstr "asn"]);
         ("address", regex_node "[0-9.]+");
         ("asn", regex_node "[0-9]+")].

Definition peer_types : pyval := VDict [("address", vstr ""); ("asn", vint 0)].

(** Scenario 1 of the specification. *)
Definition scenario1 : list Route :=
  [ {| network := ipv4 10 0 0 0 24; aspath := []; communities := []; origin := "igp" |};
    {| network := ipv4 10 0 1 0 24; aspath := []; communities := []; origin := "igp" |} ].

Definition scenario1_lines : list string :=
  [ "ip route 10.0.0.0 255.255.255.0 null0";
    "ip route 10.0.1.0 255.255.255.0 null0";
    "ip prefix-list ROUTEGEN-PL1 seq 1 permit 10.0.0.0/24";
    "ip prefix-list ROUTEGEN-PL1 seq 2 permit 10.0.1.0/24";
    "route-map ROUTEGEN-RM permit 1";
    "  match ip address prefix-list ROUTEGEN-PL1" ].

(** Two routes whose community lists differ and join to the same string. *)
Definition route_joined : Route :=
  {| network := ipv4 10 0 0 0 24; aspath := [];
     communities := ["65000:100 65000:200"]; origin := "igp" |}.

Definition route_split : Route :=
  {| network := ipv4 10 0 1 0 24; aspath := [];
     communities := ["65000:100"; "65000:200"]; origin := "igp" |}.


(** Routes with distinct attributes, for the grouping examples. *)
Definition route_a : Route :=
  {| network := ipv4 10 0 0 0 24; aspath := [65000; 65001]%N;
     communities := ["65000:100"]; origin := "igp" |}.

Definition route_b : Route :=
  {| network := ipv4 10 0 1 0 24; aspath := [];
     communities := []; origin := "incomplete" |}.

Definition route_c : Route :=
  {| network := ipv4 10 0 2 0 24; aspath := [65000; 65001]%N;
     communities := ["65000:100"]; origin := "igp" |}.

End Examples.

(** Whether the string form of [x] fully matches the regex carried by the
    leaf [dataType] of the type tree. *)
Definition matches_type_leaf (re_fullmatch : string -> string -> option bool)
    (x : scalar) (dataType : pyval) : bool :=
  match leaf_regex dataType with
  | Some pattern =>
      match re_fullmatch pattern (str x) with
      | Some true => true
      | _ => false
      end
  | None => false
  end.

(** The verdict of the validator on the item [dataContent] of a mapping or
    list, given the corresponding nodes of the schema and of the type tree. *)
Definition verdict (re_fullmatch : string -> string -> option bool)
    (dataContent dataSchema dataType : pyval) : result bool :=
  check_item re_fullmatch (basic_validation_caller re_fullmatch)
    dataContent dataSchema dataType.

(* ================================================================= *)
(** ** Further notions *)

(** The loop of [basic_validation_caller] over the entries of a mapping,
    after [basic_validation_dict] has passed. *)
Fixpoint mapping_loop (re_fullmatch : string -> string -> option bool)
    (schema types : pyval) (items : list (string * pyval)) : result bool :=
  match items with
  | [] => Ok true
  | (item, dataContent) :: rest =>
      match getitem schema item with
      | Raise e => Raise e
      | Ok dataSchema =>
          match getitem types item with
          | Raise e => Raise e
          | Ok dataType =>
              match verdict re_fullmatch dataContent dataSchema dataType with
              | Raise e => Raise e
              | Ok false => Ok false
              | Ok true => mapping_loop re_fullmatch schema types rest
              end
          end
      end
  end.

(** The loop of [basic_validation_caller] over the elements of a list, after
    [basic_validation_list] has passed. *)
Fixpoint sequence_loop (re_fullmatch : string -> string -> option bool)
    (schema types : pyval) (items : list pyval) : result bool :=
  match items with
  | [] => Ok true
  | dataContent :: rest =>
      match getitem0 schema with
      | Raise e => Raise e
      | Ok dataSchema =>
          match getitem0 types with
          | Raise e => Raise e
          | Ok dataType =>
              match verdict re_fullmatch dataContent dataSchema dataType with
              | Raise e => Raise e
              | Ok false => Ok false
              | Ok true => sequence_loop re_fullmatch schema types rest
              end
          end
      end
  end.

(** An entry of a mapping passes: its key has a schema node and a type node
    and the verdict on its value is true. *)
Definition entry_passes (re_fullmatch : string -> string -> option bool)
    (schema types : pyval) (entry : string * pyval) : Prop :=
  exists dataSchema dataType : pyval,
    getitem schema (fst entry) = Ok dataSchema
    /\ getitem types (fst entry) = Ok dataType
    /\ verdict re_fullmatch (snd entry) dataSchema dataType = Ok true.

(** An element of a list passes against the first element of the schema and
    of the type template. *)
Definition element_passes (re_fullmatch : string -> string -> option bool)
    (schema types : pyval) (element : pyval) : Prop :=
  exists dataSchema dataType : pyval,
    getitem0 schema = Ok dataSchema
    /\ getitem0 types = Ok dataType
    /\ verdict re_fullmatch element dataSchema dataType = Ok true.

(** No two members of the list are equal. *)
Fixpoint pairwise_distinct {A : Type} (eqb : A -> A -> bool) (l : list A) : bool :=
  match l with
  | [] => true
  | x :: rest => negb (existsb (eqb x) rest) && pairwise_distinct eqb rest
  end.

Definition is_dict (v : pyval) : bool :=
  match v with
  | VDict _ => true
  | _ => false
  end.

(** A mapping one of whose values is a list or a mapping. *)
Definition has_container_value (v : pyval) : bool :=
  match v with
  | VDict entries => existsb (fun kv => is_container (snd kv)) entries
  | _ => false
  end.

(** [ConfigValidationTestFailedError.__str__], for the error raised with the
    description [test]. *)
Definition ConfigValidationTestFailedError_str (test : string) : string :=
  "Test failed during configuration validation: " ++ test.

(** [routeDict[key]] read without inserting: the entry of a key, if any. *)
Fixpoint routeDict_get (routeDict : list (Ios.policy * list IPv4Network))
    (key : Ios.policy) : option (list IPv4Network) :=
  match routeDict with
  | [] => None
  | (k, values) :: rest =>
      if Ios.policy_eqb k key then Some values else routeDict_get rest key
  end.

(* ================================================================= *)
(** ** Accepted documents

    What the validator accepts, said without running it: the conditions on
    one node of the value, and the same conditions on the nodes below it. *)

(** The value at a leaf is a scalar whose string form fully matches the
    regex of the schema node. *)
Definition leaf_ok (re_fullmatch : string -> string -> option bool)
    (value dataSchema : pyval) : Prop :=
  exists (x : scalar) (pattern : string),
    value = VScalar x
    /\ getitem dataSchema "regex" = Ok (vstr pattern)
    /\ re_fullmatch pattern (str x) = Some true.

(** The keys of a mapping fit a schema node: the node is a mapping that
    declares every key, and every item that iterating over its [required]
    entry yields is the name of a key of the value. *)
Definition keys_ok (entries : list (string * pyval)) (schema : pyval) : Prop :=
  exists (declared : list (string * pyval)) (required : pyval) (names : list pyval),
    schema = VDict declared
    /\ Forall (fun key => dict_has declared key = true) (keys entries)
    /\ dict_get declared "required" = Some required
    /\ iter required = Ok names
    /\ Forall (fun x => exists name, x = vstr name /\ dict_has entries name = true) names.

(** A list without duplicates in the sense of the validator: scalars no two
    of which are equal, or mappings of scalars no two of which have the same
    entries in the same order. *)
Definition no_duplicates (elements : list pyval) : Prop :=
  (exists members : list scalar,
      elements = map VScalar members
      /\ pairwise_distinct scalar_eqb members = true)
  \/ (exists (t : list (string * scalar)) (ts : list (list (string * scalar))),
        elements = map dict_of (t :: ts)
        /\ pairwise_distinct tuple_eqb (t :: ts) = true).

Inductive Accepted (re_fullmatch : string -> string -> option bool)
  : pyval -> pyval -> pyval -> Prop :=
| Accepted_mapping (entries : list (string * pyval)) (schema types : pyval) :
    keys_ok entries schema ->
    Forall (fun entry : string * pyval =>
              exists dataSchema dataType : pyval,
                getitem schema (fst entry) = Ok dataSchema
                /\ getitem types (fst entry) = Ok dataType
                /\ isinstance (snd entry) (type_of dataType) = true
                /\ (is_container dataType = true ->
                    Accepted re_fullmatch (snd entry) dataSchema dataType)
                /\ (is_container dataType = false ->
                    leaf_ok re_fullmatch (snd entry) dataSchema))
           entries ->
    Accepted re_fullmatch (VDict entries) schema types
| Accepted_sequence (elements : list pyval) (schema types : pyval) :
    no_duplicates elements ->
    Forall (fun element : pyval =>
              exists dataSchema dataType : pyval,
                getitem0 schema = Ok dataSchema
                /\ getitem0 types = Ok dataType
                /\ isinstance element (type_of dataType) = true
                /\ (is_container dataType = true ->
                    Accepted re_fullmatch element dataSchema dataType)
                /\ (is_container dataType = false ->
                    leaf_ok re_fullmatch element dataSchema))
           elements ->
    Accepted re_fullmatch (VList elements) schema types.

(** The conditions on one item of a mapping or list: it has the runtime type
    of its template node, and it is accepted in turn when the template node
    is a mapping or a list, matched against the regex when it is a leaf. *)
Definition item_ok (re_fullmatch : string -> string -> option bool)
    (value dataSchema dataType : pyval) : Prop :=
  isinstance value (type_of dataType) = true
  /\ (is_container dataType = true -> Accepted re_fullmatch value dataSchema dataType)
  /\ (is_container dataType = false -> leaf_ok re_fullmatch value dataSchema).

(** The static-route command of Junos as the specification words it: it
    names the routing instance when [vrf] is given. *)
Definition junos_route_start (vrf : string) : string :=
  if Str.truthy vrf
  then "set routing-instances " ++ vrf ++ " routing-options static route"
  else "set routing-options static route".

(* ================================================================= *)
(** * Properties *)

(** ** The orchestrator *)

Section OrchestratorFacts.

Variable re_fullmatch : string -> string -> option bool.

Lemma validate_base_pass_returns_None (key : string) (config schema types : pyval)
    (config_section schema_section types_section : pyval) :
  getitem config key = Ok config_section ->
  getitem schema key = Ok schema_section ->
  getitem types key = Ok types_section ->
  basic_validation_caller re_fullmatch config_section schema_section types_section = Ok true ->
  validate_base re_fullmatch key pass config schema types = Ok vnone.
Proof.
  intros Hc Hs Ht Hv. unfold validate_base.
  rewrite Hc, Hs, Ht. cbn [bind]. rewrite Hv. reflexivity.
Qed.

(** Every section validator answers [False] or [None], never a true value. *)
Lemma validate_base_pass_not_truthy (key : string) (config schema types verdict : pyval) :
  validate_base re_fullmatch key pass config schema types = Ok verdict ->
  truthy verdict = false.
Proof.
  unfold validate_base, pass, bind.
  destruct (getitem config key); [|discriminate].
  destruct (getitem schema key); [|discriminate].
  destruct (getitem types key); [|discriminate].
  destruct (basic_validation_caller re_fullmatch a a0 a1) as [[|]|]; cbn;
    intros H; inversion H; reflexivity.
Qed.

(** X13: [validateConfig] never returns normally, whatever the documents
    and the matcher are: the test of the basic section answers [False] or
    [None], and both count as a failed test. *)
Lemma validateConfig_never_returns (config schema types : pyval) :
  validateConfig re_fullmatch config schema types <> Ok tt.
Proof.
  unfold validateConfig, enabledTests, run_tests, validate_basic.
  destruct (validate_base re_fullmatch "basic" pass config schema types) as [verdict|e] eqn:E.
  - rewrite (validate_base_pass_not_truthy _ _ _ _ _ E). discriminate.
  - discriminate.
Qed.

(** C1: on every configuration, schema and types document whose [basic]
    subtree passes the generic validator, [validateConfig] does not return
    normally: the refinement of [validate_basic] is a body [pass], its [None]
    counts as a failed test and [ConfigValidationTestFailedError] is raised
    with the description of the basic test. *)
Theorem validateConfig_raises_when_basic_passes
    (config schema types config_section schema_section types_section : pyval) :
  getitem config "basic" = Ok config_section ->
  getitem schema "basic" = Ok schema_section ->
  getitem types "basic" = Ok types_section ->
  basic_validation_caller re_fullmatch config_section schema_section types_section = Ok true ->
  validateConfig re_fullmatch config schema types
  = Raise (ConfigValidationTestFailedError "Test to validate basic configuration").
Proof.
  intros Hc Hs Ht Hv.
  unfold validateConfig, enabledTests, run_tests, validate_basic.
  rewrite (validate_base_pass_returns_None "basic" _ _ _ _ _ _ Hc Hs Ht Hv).
  reflexivity.
Qed.

End OrchestratorFacts.

Lemma validateConfig_raises_when_basic_passes_witness :
  basic_validation_caller Re.fullmatch
    Examples.basic_section Examples.basic_schema Examples.basic_types = Ok true
  /\ validateConfig Re.fullmatch Examples.config Examples.schema Examples.types
     = Raise (ConfigValidationTestFailedError "Test to validate basic configuration").
Proof.
  split.
  - vm_compute. reflexivity.
  - apply (validateConfig_raises_when_basic_passes Re.fullmatch
             Examples.config Examples.schema Examples.types
             Examples.basic_section Examples.basic_schema Examples.basic_types);
      vm_compute; reflexivity.
Defined.

(* ================================================================= *)
(** ** The Junos compiler *)

Module JunosFacts.

Import Junos.

Lemma last_cons_default {A : Type} (x : A) (l : list A) (d d' : A) :
  last (x :: l) d = last (x :: l) d'.
Proof.
  revert x. induction l as [|y l IH]; intros x; [reflexivity|].
  change (last (y :: l) d = last (y :: l) d'). apply IH.
Qed.

(** The loop appends one line per route and leaves the last one in
    [command]. *)
Lemma route_loop (vrf : string) (routes : list Route) (config : list string) (command : string) :
  fold_left (route_step vrf) routes (config, command)
  = (config +++ map (route_command vrf) routes,
     last (map (route_command vrf) routes) command).
Proof.
  revert config command.
  induction routes as [|route routes IH]; intros config command.
  - cbn. rewrite app_nil_r. reflexivity.
  - cbn [fold_left map]. unfold route_step at 2. cbn [fst].
    rewrite IH, <- app_assoc. cbn [List.app]. f_equal.
    destruct (map (route_command vrf) routes) as [|line lines]; [reflexivity|].
    change (last (line :: lines) (route_command vrf route)
            = last (line :: lines) command).
    apply last_cons_default.
Qed.

(** The lines of the emitted configuration: the routes in input order, then
    the two lines of the policy statement, whatever [bgpGroup] is. *)
Lemma emitted_lines (routes : list Route) (vrf bgpGroup : string) :
  fst (final_state routes vrf bgpGroup)
  = map (route_command vrf) routes
    +++ [ basePolicyCommand ++ " from protocol static";
          basePolicyCommand ++ " then accept" ].
Proof.
  unfold final_state. rewrite route_loop. cbn [List.app fst].
  rewrite <- app_assoc. reflexivity.
Qed.

(** The attachment statement ends up in the variable [command]. *)
Lemma attachment_in_command (routes : list Route) (vrf bgpGroup : string) :
  Str.truthy bgpGroup = true ->
  snd (final_state routes vrf bgpGroup)
  = last (map (route_command vrf) routes) ""
    ++ baseCommand vrf ++ " protocols bgp group " ++ bgpGroup ++ " export ROUTEGEN-POLICY".
Proof.
  intros H. unfold final_state. rewrite route_loop, H. reflexivity.
Qed.

(** C2: the Junos compiler emits no export-policy attachment statement, not
    even for a non-empty [bgpGroup]: the statement is appended to the variable
    [command] after the last use of that variable, and the lines written to
    the file are those of the same call with an empty [bgpGroup].  For one
    route and the group PEERS the file holds the static route and the two
    policy-statement lines only. *)
Theorem config_junos_drops_bgpGroup :
  (forall (routes : list Route) (path vrf bgpGroup : string) (fs : filesystem),
      config_junos routes path vrf bgpGroup fs = config_junos routes path vrf "" fs)
  /\ config_junos [Examples.route_b] "out" "" "PEERS" []
     = [ ("out/config.txt",
          Str.join newline
            [ "set routing-options static route 10.0.1.0/24 discard as-path origin incomplete";
              "set policy-options policy-statement ROUTEGEN-POLICY term 1 from protocol static";
              "set policy-options policy-statement ROUTEGEN-POLICY term 1 then accept" ]) ].
Proof.
  split.
  - intros routes path vrf bgpGroup fs. unfold config_junos, config_text.
    rewrite !emitted_lines. reflexivity.
  - vm_compute. reflexivity.
Qed.

End JunosFacts.

(* ================================================================= *)
(** ** Scenario 1 and the dispatch table *)

(** C7: compiling the two routes of Scenario 1 for IOS without [localAS]
    (the default -1) and without [vrf] gives exactly two [ip route ... null0]
    lines, one prefix-list with the entries seq 1 and seq 2, and one route-map
    clause with the prefix-list match alone: no set clause, no [router bgp]
    and no redistribute line. *)
Theorem scenario1_ios :
  filter Str.truthy (Ios.config_lines Examples.scenario1 (-1) "") = Examples.scenario1_lines
  /\ Ios.config_text Examples.scenario1 (-1) "" = Str.join newline Examples.scenario1_lines
  /\ Ios.config_ios Examples.scenario1 "out" (-1) "" []
     = [("out/config.txt", Str.join newline Examples.scenario1_lines)]
  /\ map (fun start => count_lines start (Ios.config_lines Examples.scenario1 (-1) ""))
         [ "ip route "; "ip prefix-list ROUTEGEN-PL1 seq "; "ip prefix-list ";
           "route-map "; "  match ip address prefix-list "; "  set ";
           "router bgp"; "redistribute" ]
     = [2; 2; 2; 1; 1; 0; 0; 0].
Proof.
  repeat split; vm_compute; reflexivity.
Qed.

Lemma lookup_platforms (name : string) (g : generator) :
  lookup platforms name = Some g ->
  g = config_ios_fn \/ g = config_junos_fn \/ g = config_container_fn.
Proof.
  unfold platforms, lookup.
  destruct (String.eqb "ios" name); [intros H; inversion H; auto|].
  destruct (String.eqb "junos" name); [intros H; inversion H; auto|].
  destruct (String.eqb "container" name); [intros H; inversion H; auto|].
  discriminate.
Qed.

(** C8 (amended): [config_iosxr] raises [NotImplementedError] whenever it is
    called, a failure other than the [KeyError] of a failed lookup; the
    dispatch table [platforms] has the entries ios, junos and container and
    no other, so that every other name, an IOS-XR one included, is looked up
    without a result. *)
Theorem iosxr_raises_and_platforms_entries :
  config_iosxr
  = Raise (NotImplementedError "IOS-XR configuration generation is not implemented yet.")
  /\ config_iosxr <> Raise KeyError
  /\ forall name : string,
       lookup platforms name
       = if String.eqb "ios" name then Some config_ios_fn
         else if String.eqb "junos" name then Some config_junos_fn
         else if String.eqb "container" name then Some config_container_fn
         else None.
Proof.
  split; [reflexivity|]. split; [discriminate|].
  intros name. reflexivity.
Qed.

(** C8, as stated, fails: no platform name selects [config_iosxr], and the
    lookup of an IOS-XR name ends like the lookup of a name that never had a
    compiler. *)
Lemma iosxr_has_no_platform_name :
  ~ (exists name : string, lookup platforms name = Some config_iosxr_fn)
  /\ lookup platforms "iosxr" = lookup platforms "no-such-platform".
Proof.
  split; [|reflexivity].
  intros [name H]. apply lookup_platforms in H.
  destruct H as [H|[H|H]]; discriminate.
Qed.

(* ================================================================= *)
(** ** The generic validator at a leaf *)

Section LeafFacts.

Variable re_fullmatch : string -> string -> option bool.
Variable caller : pyval -> pyval -> pyval -> result bool.

(** An instance of the type of a scalar is a scalar. *)
Lemma leaf_content_scalar (dataContent dataType : pyval) :
  is_container dataType = false ->
  isinstance dataContent (type_of dataType) = true ->
  exists x, dataContent = VScalar x.
Proof.
  destruct dataType as [t| |]; [|discriminate|discriminate].
  destruct dataContent as [x| |]; [exists x; reflexivity| |];
    destruct t; discriminate.
Qed.

Lemma check_item_not_instance (dataContent dataSchema dataType : pyval) :
  isinstance dataContent (type_of dataType) = false ->
  check_item re_fullmatch caller dataContent dataSchema dataType = Ok false.
Proof.
  intros H. unfold check_item. rewrite H. reflexivity.
Qed.

Lemma check_item_leaf (x : scalar) (dataSchema dataType : pyval) :
  is_container dataType = false ->
  isinstance (VScalar x) (type_of dataType) = true ->
  check_item re_fullmatch caller (VScalar x) dataSchema dataType
  = match getitem dataSchema "regex" with
    | Raise e => Raise e
    | Ok pattern => fullmatch re_fullmatch pattern (str x)
    end.
Proof.
  intros Hleaf Hinst. unfold check_item. rewrite Hinst, Hleaf. cbn [negb].
  destruct (getitem dataSchema "regex") as [pattern|e]; [|reflexivity].
  destruct (fullmatch re_fullmatch pattern (str x)) as [[|]|]; reflexivity.
Qed.

Lemma fullmatch_true (pattern : pyval) (s : string) :
  fullmatch re_fullmatch pattern s = Ok true <->
  exists p, pattern = vstr p /\ re_fullmatch p s = Some true.
Proof.
  unfold fullmatch. split.
  - destruct pattern as [[| | |p]| |]; try discriminate.
    destruct (re_fullmatch p s) as [[|]|] eqn:E; try discriminate.
    intros _. exists p. split; [reflexivity|assumption].
  - intros [p [-> E]]. cbn. rewrite E. reflexivity.
Qed.

(** C3 (amended): at a leaf position (the node of the type template is
    neither a mapping nor a sequence) the verdict is true iff the value is a
    scalar of the type of the template leaf and its string representation
    fully matches the regex stored under [regex] in the corresponding node of
    the schema tree (the second argument); the type tree contributes the
    runtime type only. *)
Theorem leaf_verdict_uses_schema_regex (dataContent dataSchema dataType : pyval) :
  is_container dataType = false ->
  (check_item re_fullmatch caller dataContent dataSchema dataType = Ok true <->
   exists (x : scalar) (pattern : string),
     dataContent = VScalar x
     /\ isinstance dataContent (type_of dataType) = true
     /\ getitem dataSchema "regex" = Ok (vstr pattern)
     /\ re_fullmatch pattern (str x) = Some true).
Proof.
  intros Hleaf. split.
  - intros H.
    destruct (isinstance dataContent (type_of dataType)) eqn:Hinst.
    + destruct (leaf_content_scalar _ _ Hleaf Hinst) as [x ->].
      rewrite (check_item_leaf x dataSchema dataType Hleaf Hinst) in H.
      destruct (getitem dataSchema "regex") as [pattern|e]; [|discriminate].
      apply fullmatch_true in H. destruct H as [p [-> Hp]].
      exists x, p. repeat split; assumption.
    + rewrite (check_item_not_instance _ _ _ Hinst) in H. discriminate.
  - intros [x [p [-> [Hinst [Hget Hp]]]]].
    rewrite (check_item_leaf x dataSchema dataType Hleaf Hinst), Hget.
    apply fullmatch_true. exists p. split; [reflexivity|assumption].
Qed.

(** C4 (amended): at a scalar leaf the verdict depends on the runtime type
    of the value and on its string representation.  A value that is not an
    instance of the type of the template leaf is rejected whatever its string
    form; for a value that is an instance, the verdict is the outcome of
    fully matching [str] of the value against the regex of the schema node,
    so that it depends on the value through its string form only.  Hence two
    values with equal string form that agree on the instance test get the
    same verdict against the same leaf node. *)
Theorem leaf_verdict_from_str_and_type (x : scalar) (dataSchema dataType : pyval) :
  is_container dataType = false ->
  check_item re_fullmatch caller (VScalar x) dataSchema dataType
  = (if isinstance (VScalar x) (type_of dataType)
     then match getitem dataSchema "regex" with
          | Raise e => Raise e
          | Ok pattern => fullmatch re_fullmatch pattern (str x)
          end
     else Ok false)
  /\ forall y : scalar,
       str x = str y ->
       isinstance (VScalar x) (type_of dataType) = isinstance (VScalar y) (type_of dataType) ->
       check_item re_fullmatch caller (VScalar x) dataSchema dataType
       = check_item re_fullmatch caller (VScalar y) dataSchema dataType.
Proof.
  intros Hleaf. split.
  - destruct (isinstance (VScalar x) (type_of dataType)) eqn:Hx.
    + apply (check_item_leaf x _ _ Hleaf Hx).
    + apply (check_item_not_instance _ _ _ Hx).
  - intros y Hstr Hinst.
    destruct (isinstance (VScalar y) (type_of dataType)) eqn:Hy.
    + rewrite (check_item_leaf x _ _ Hleaf Hinst), (check_item_leaf y _ _ Hleaf Hy), Hstr.
      reflexivity.
    + rewrite (check_item_not_instance _ _ _ Hinst), (check_item_not_instance _ _ _ Hy).
      reflexivity.
Qed.

End LeafFacts.

(** The verdict on the only entry of a mapping decides the validation of the
    mapping. *)
Lemma single_entry_verdict (re_fullmatch : string -> string -> option bool)
    (key : string) (dataContent schema types dataSchema dataType : pyval) :
  basic_validation_dict [(key, dataContent)] schema = Ok true ->
  getitem schema key = Ok dataSchema ->
  getitem types key = Ok dataType ->
  basic_validation_caller re_fullmatch (VDict [(key, dataContent)]) schema types
  = verdict re_fullmatch dataContent dataSchema dataType.
Proof.
  intros Hdict Hs Ht. cbn [basic_validation_caller]. rewrite Hdict, Hs, Ht.
  unfold verdict.
  destruct (check_item re_fullmatch (basic_validation_caller re_fullmatch)
              dataContent dataSchema dataType) as [[|]|]; reflexivity.
Qed.

Lemma leaf_verdict_uses_schema_regex_witness :
  verdict Re.fullmatch (vint 65000) (Examples.regex_node "[0-9]+") (vint 0) = Ok true.
Proof.
  apply (leaf_verdict_uses_schema_regex Re.fullmatch
           (basic_validation_caller Re.fullmatch)
           (vint 65000) (Examples.regex_node "[0-9]+") (vint 0)).
  - reflexivity.
  - exists (SInt 65000), "[0-9]+". repeat split; vm_compute; reflexivity.
Defined.

(** C3, as stated, fails: with the regex of the schema node matching and the
    string carried by the leaf of the type tree not matching, the verdict is
    true. *)
Lemma leaf_regex_not_from_type_tree :
  is_container (vstr "[0-9]+") = false
  /\ ~ (verdict Re.fullmatch (vstr "edge1") (Examples.regex_node "[a-z0-9-]+") (vstr "[0-9]+")
        = Ok true
        <-> matches_type_leaf Re.fullmatch (SStr "edge1") (vstr "[0-9]+") = true).
Proof.
  split; [reflexivity|].
  intros [H _].
  assert (E : matches_type_leaf Re.fullmatch (SStr "edge1") (vstr "[0-9]+") = false)
    by (vm_compute; reflexivity).
  rewrite E in H. apply Bool.diff_false_true, H. vm_compute. reflexivity.
Qed.

Lemma leaf_verdict_from_str_and_type_witness :
  verdict Re.fullmatch (vint 65000) (Examples.regex_node "[0-9]+") (vint 0) = Ok true
  /\ verdict Re.fullmatch (vint 65000) (Examples.regex_node "[a-z]+") (vint 0) = Ok false
  /\ verdict Re.fullmatch (vstr "65000") (Examples.regex_node "[0-9]+") (vint 0) = Ok false.
Proof.
  unfold verdict.
  destruct (leaf_verdict_from_str_and_type Re.fullmatch
              (basic_validation_caller Re.fullmatch)
              (SInt 65000) (Examples.regex_node "[0-9]+") (vint 0) eq_refl) as [H1 _].
  destruct (leaf_verdict_from_str_and_type Re.fullmatch
              (basic_validation_caller Re.fullmatch)
              (SInt 65000) (Examples.regex_node "[a-z]+") (vint 0) eq_refl) as [H2 _].
  destruct (leaf_verdict_from_str_and_type Re.fullmatch
              (basic_validation_caller Re.fullmatch)
              (SStr "65000") (Examples.regex_node "[0-9]+") (vint 0) eq_refl) as [H3 _].
  change (vint 65000) with (VScalar (SInt 65000)).
  change (vstr "65000") with (VScalar (SStr "65000")).
  rewrite H1, H2, H3. repeat split; vm_compute; reflexivity.
Defined.

(** C4, as stated, fails: the integer 65000 and the string of the same
    digits have the same string form and get different verdicts against the
    same leaf node, whose template is an integer. *)
Lemma leaf_verdict_depends_on_runtime_type :
  str (SInt 65000) = str (SStr "65000")
  /\ verdict Re.fullmatch (vint 65000) (Examples.regex_node "[0-9]+") (vint 0) = Ok true
  /\ verdict Re.fullmatch (vstr "65000") (Examples.regex_node "[0-9]+") (vint 0) = Ok false.
Proof.
  repeat split; vm_compute; reflexivity.
Qed.

(* ================================================================= *)
(** ** The generic validator on mappings *)

Section MappingFacts.

Variable re_fullmatch : string -> string -> option bool.

Lemma mapM_total {A B : Type} (f : A -> B) (l : list A) :
  mapM (fun x => Ok (f x)) l = Ok (map f l).
Proof.
  induction l as [|x l IH]; [reflexivity|].
  cbn. rewrite IH. reflexivity.
Qed.

Lemma all_map {A : Type} (f : A -> bool) (l : list A) :
  all (map f l) = forallb f l.
Proof.
  unfold all. induction l as [|x l IH]; [reflexivity|].
  cbn. rewrite IH. reflexivity.
Qed.

(** The first test of [basic_validation_dict] against a mapping schema. *)
Lemma basic_validation_dict_invalid_key (config schema : list (string * pyval)) :
  forallb (dict_has schema) (keys config) = false ->
  basic_validation_dict config (VDict schema) = Ok false.
Proof.
  intros H. unfold basic_validation_dict, key_in.
  rewrite mapM_total. cbn [bind]. rewrite all_map, H. reflexivity.
Qed.

Lemma basic_validation_dict_reads_required (config schema : list (string * pyval)) :
  forallb (dict_has schema) (keys config) = true ->
  basic_validation_dict config (VDict schema)
  = (required <- getitem (VDict schema) "required" ;;
     names <- iter required ;;
     present <- mapM (fun x => in_dict x config) names ;;
     if negb (all present) then Ok false else Ok true).
Proof.
  intros H. unfold basic_validation_dict, key_in.
  rewrite mapM_total. cbn [bind]. rewrite all_map, H. reflexivity.
Qed.

Lemma dict_has_app (front back : list (string * pyval)) (key : string) :
  dict_has (front +++ back) key = dict_has front key || dict_has back key.
Proof.
  unfold dict_has. induction front as [|[k v] front IH]; cbn.
  - destruct (dict_get back key); reflexivity.
  - destruct (String.eqb k key); [reflexivity|exact IH].
Qed.

(** C10 (amended): for a mapping value and a mapping schema node without a
    [required] entry, the validator raises [KeyError] exactly when every key
    of the value is a key of the schema node; when some key of the value is
    not declared, it returns [False] before [required] is read.  A key named
    [required] counts as declared in every schema node that has the
    [required] entry, and a value with an undeclared key is rejected with
    [False] by every mapping schema node, with or without [required]. *)
Theorem mapping_without_required (config schema : list (string * pyval)) (types : pyval) :
  dict_has schema "required" = false ->
  basic_validation_caller re_fullmatch (VDict config) (VDict schema) types
  = (if forallb (dict_has schema) (keys config) then Raise KeyError else Ok false)
  /\ (forall required : pyval,
        key_in "required" (VDict (schema +++ [("required", required)])) = Ok true)
  /\ (forall declared : list (string * pyval),
        forallb (dict_has declared) (keys config) = false ->
        basic_validation_caller re_fullmatch (VDict config) (VDict declared) types
        = Ok false).
Proof.
  intros Hreq. split; [|split].
  - cbn [basic_validation_caller].
    destruct (forallb (dict_has schema) (keys config)) eqn:Hkeys.
    + rewrite (basic_validation_dict_reads_required _ _ Hkeys).
      unfold getitem. unfold dict_has in Hreq.
      destruct (dict_get schema "required"); [discriminate|reflexivity].
    + rewrite (basic_validation_dict_invalid_key _ _ Hkeys). reflexivity.
  - intros required. unfold key_in. rewrite dict_has_app, Hreq. reflexivity.
  - intros declared Hkeys. cbn [basic_validation_caller].
    rewrite (basic_validation_dict_invalid_key _ _ Hkeys). reflexivity.
Qed.

End MappingFacts.

Lemma mapping_without_required_witness :
  basic_validation_caller Re.fullmatch
    (VDict [("hostname", vstr "edge1")])
    (VDict [("hostname", Examples.regex_node "[a-z0-9-]+")])
    (VDict [("hostname", vstr "")])
  = Raise KeyError.
Proof.
  apply (mapping_without_required Re.fullmatch
           [("hostname", vstr "edge1")]
           [("hostname", Examples.regex_node "[a-z0-9-]+")]
           (VDict [("hostname", vstr "")])).
  reflexivity.
Defined.

(** C10, as stated, fails: the schema node has no [required] entry and the
    validator returns [False] for a mapping with an undeclared key. *)
Lemma undeclared_key_returns_False :
  getitem (VDict [("hostname", Examples.regex_node "[a-z0-9-]+")]) "required" = Raise KeyError
  /\ basic_validation_caller Re.fullmatch
       (VDict [("asn", vint 65000)])
       (VDict [("hostname", Examples.regex_node "[a-z0-9-]+")])
       (VDict [("hostname", vstr "")])
     = Ok false.
Proof.
  split; vm_compute; reflexivity.
Qed.

(* ================================================================= *)
(** ** Duplicates in a list *)

Section SetFacts.

Context {A : Type} (eqb : A -> A -> bool).

Lemma set_add_length (s : list A) (x : A) :
  List.length (set_add eqb s x) <= S (List.length s).
Proof.
  unfold set_add. destruct (existsb (eqb x) s); [lia|].
  rewrite length_app. cbn. lia.
Qed.

Lemma set_fold_length (l s : list A) :
  List.length (fold_left (set_add eqb) l s) <= List.length s + List.length l.
Proof.
  revert s. induction l as [|x l IH]; intros s; cbn [fold_left List.length]; [lia|].
  specialize (IH (set_add eqb s x)). pose proof (set_add_length s x). lia.
Qed.

Lemma set_add_keeps (s : list A) (x y : A) :
  existsb (eqb y) s = true -> existsb (eqb y) (set_add eqb s x) = true.
Proof.
  intros H. unfold set_add. destruct (existsb (eqb x) s); [assumption|].
  rewrite existsb_app, H. reflexivity.
Qed.

Lemma set_fold_keeps (l s : list A) (y : A) :
  existsb (eqb y) s = true -> existsb (eqb y) (fold_left (set_add eqb) l s) = true.
Proof.
  revert s. induction l as [|x l IH]; intros s H; cbn [fold_left]; [assumption|].
  apply IH, set_add_keeps, H.
Qed.

Lemma set_add_self (s : list A) (x : A) :
  eqb x x = true -> existsb (eqb x) (set_add eqb s x) = true.
Proof.
  intros Hrefl. unfold set_add. destruct (existsb (eqb x) s) eqn:E; [assumption|].
  rewrite existsb_app. cbn. rewrite Hrefl, orb_true_r. reflexivity.
Qed.

(** A list in which a member equal to itself occurs twice makes a smaller
    set. *)
Lemma set_of_repeated (front middle back : list A) (x : A) :
  eqb x x = true ->
  List.length (set_of eqb (front +++ x :: middle +++ x :: back))
  < List.length (front +++ x :: middle +++ x :: back).
Proof.
  intros Hrefl. unfold set_of.
  rewrite fold_left_app. cbn [fold_left]. rewrite fold_left_app. cbn [fold_left].
  set (s0 := fold_left (set_add eqb) front []).
  set (s1 := fold_left (set_add eqb) middle (set_add eqb s0 x)).
  assert (Hin : existsb (eqb x) s1 = true)
    by (apply set_fold_keeps, set_add_self, Hrefl).
  assert (Hsame : set_add eqb s1 x = s1) by (unfold set_add; rewrite Hin; reflexivity).
  rewrite Hsame.
  pose proof (set_fold_length back s1) as H3.
  pose proof (set_fold_length middle (set_add eqb s0 x)) as H2. fold s1 in H2.
  pose proof (set_add_length s0 x) as H1.
  pose proof (set_fold_length front []) as H0. fold s0 in H0. cbn [List.length] in H0.
  rewrite !length_app. cbn [List.length]. rewrite !length_app. cbn [List.length]. lia.
Qed.

End SetFacts.

Lemma scalar_eqb_refl (x : scalar) : scalar_eqb x x = true.
Proof.
  destruct x as [|b|z|s]; cbn.
  - reflexivity.
  - destruct b; reflexivity.
  - apply Z.eqb_refl.
  - apply String.eqb_refl.
Qed.

Lemma tuple_eqb_refl (t : list (string * scalar)) : tuple_eqb t t = true.
Proof.
  induction t as [|[k x] t IH]; [reflexivity|].
  cbn. rewrite String.eqb_refl, scalar_eqb_refl, IH. reflexivity.
Qed.

Lemma items_tuple_dict_of (t : list (string * scalar)) :
  items_tuple (dict_of t) = Ok t.
Proof.
  unfold items_tuple, dict_of.
  induction t as [|[k x] t IH]; [reflexivity|].
  cbn. cbn in IH. rewrite IH. reflexivity.
Qed.

Lemma mapM_items_tuple (ts : list (list (string * scalar))) :
  mapM items_tuple (map dict_of ts) = Ok ts.
Proof.
  induction ts as [|t ts IH]; [reflexivity|].
  cbn [map mapM]. rewrite items_tuple_dict_of, IH. reflexivity.
Qed.

Lemma mapM_hashable_dicts (t : list (string * scalar)) (ts : list (list (string * scalar))) :
  mapM hashable (map dict_of (t :: ts)) = Raise TypeError.
Proof. reflexivity. Qed.

(** X8: the duplicates that the list test does find among mappings: a list
    of mappings of scalars in which one mapping occurs twice with its entries
    in the same order is rejected, wherever the two occurrences are. *)
Lemma same_order_duplicate_rejected (front middle back : list (list (string * scalar)))
    (t : list (string * scalar)) :
  basic_validation_list (map dict_of (front +++ t :: middle +++ t :: back)) = Ok false.
Proof.
  unfold basic_validation_list.
  assert (Hhash : mapM hashable (map dict_of (front +++ t :: middle +++ t :: back))
                  = Raise TypeError)
    by (destruct front; apply mapM_hashable_dicts).
  rewrite Hhash, mapM_items_tuple. cbn [bind].
  rewrite length_map.
  pose proof (set_of_repeated tuple_eqb front middle back t (tuple_eqb_refl t)) as Hlt.
  destruct (Nat.eqb_spec
              (List.length (set_of tuple_eqb (front +++ t :: middle +++ t :: back)))
              (List.length (front +++ t :: middle +++ t :: back))) as [E|E];
    [lia|reflexivity].
Qed.

(** C5: a list holding two mappings with the same key/value pairs in a
    different key order passes the duplicate test, and the validator returns
    [True] for it: [tuple(d.items())] compares the entries position by
    position.  The same mapping listed twice in the same key order is
    rejected. *)
Theorem reordered_duplicate_accepted :
  Permutation Examples.peer_entries (rev Examples.peer_entries)
  /\ basic_validation_list [Examples.peer_ab; Examples.peer_ba] = Ok true
  /\ basic_validation_caller Re.fullmatch
       (VList [Examples.peer_ab; Examples.peer_ba])
       (VList [Examples.peer_schema]) (VList [Examples.peer_types])
     = Ok true
  /\ basic_validation_caller Re.fullmatch
       (VList [Examples.peer_ab; Examples.peer_ab])
       (VList [Examples.peer_schema]) (VList [Examples.peer_types])
     = Ok false.
Proof.
  split; [apply Permutation_rev|].
  repeat split; vm_compute; reflexivity.
Qed.

(* ================================================================= *)
(** ** Joined strings *)

Module StrFacts.

Import Str.

Lemma has_char_cons (c a : ascii) (s : string) :
  has_char c (String a s) = Ascii.eqb c a || has_char c s.
Proof. reflexivity. Qed.

Lemma split_without (c : ascii) (s : string) :
  has_char c s = false -> split c s = [s].
Proof.
  induction s as [|a s IH]; [reflexivity|].
  rewrite has_char_cons. intros H. apply orb_false_elim in H. destruct H as [Ha Hs].
  cbn [split]. rewrite Ascii.eqb_sym, Ha, (IH Hs). reflexivity.
Qed.

Lemma split_at_first (c : ascii) (piece rest : string) :
  has_char c piece = false ->
  split c (piece ++ String c rest) = piece :: split c rest.
Proof.
  induction piece as [|a piece IH]; intros H.
  - cbn. rewrite Ascii.eqb_refl. reflexivity.
  - rewrite has_char_cons in H. apply orb_false_elim in H. destruct H as [Ha Hs].
    cbn [append split]. rewrite Ascii.eqb_sym, Ha, (IH Hs). reflexivity.
Qed.

Lemma split_join (piece : string) (pieces : list string) :
  Forall blank_free (piece :: pieces) ->
  split " " (join " " (piece :: pieces)) = piece :: pieces.
Proof.
  revert piece. induction pieces as [|q pieces IH]; intros piece H.
  - cbn [join]. apply split_without. inversion H; assumption.
  - inversion H as [|? ? Hp Hrest]; subst.
    change (join " " (piece :: q :: pieces))
      with (piece ++ String " " (join " " (q :: pieces))).
    rewrite (split_at_first " " piece _ Hp), (IH q Hrest). reflexivity.
Qed.

Lemma join_nonempty (piece : string) (pieces : list string) :
  truthy piece = true -> join " " (piece :: pieces) <> "".
Proof.
  destruct piece as [|a piece]; [discriminate|].
  intros _. destruct pieces; discriminate.
Qed.

(** Joining with a blank loses nothing on pieces that are not empty and have
    no blank. *)
Lemma join_injective (l m : list string) :
  Forall (fun s => truthy s = true /\ blank_free s) l ->
  Forall (fun s => truthy s = true /\ blank_free s) m ->
  join " " l = join " " m -> l = m.
Proof.
  intros Hl Hm E.
  assert (Hblank : forall k, Forall (fun s => truthy s = true /\ blank_free s) k ->
                             Forall blank_free k).
  { intros k Hk. eapply Forall_impl; [|exact Hk]. intros s [_ H]. exact H. }
  destruct l as [|p l], m as [|q m].
  - reflexivity.
  - exfalso. symmetry in E. revert E. apply join_nonempty.
    inversion Hm as [|? ? [H _] _]. exact H.
  - exfalso. revert E. apply join_nonempty.
    inversion Hl as [|? ? [H _] _]. exact H.
  - rewrite <- (split_join p l (Hblank _ Hl)), <- (split_join q m (Hblank _ Hm)), E.
    reflexivity.
Qed.

Lemma string_of_uint_blank_free (d : Decimal.uint) :
  blank_free (NilEmpty.string_of_uint d).
Proof.
  unfold blank_free. induction d; cbn [NilEmpty.string_of_uint];
    try reflexivity; rewrite has_char_cons, IHd; reflexivity.
Qed.

Lemma of_N_ok (n : N) : truthy (of_N n) = true /\ blank_free (of_N n).
Proof.
  split; [|apply string_of_uint_blank_free].
  unfold of_N.
  assert (H : N.to_uint n <> Decimal.Nil)
    by (destruct n; [discriminate|apply DecimalPos.Unsigned.to_uint_nonnil]).
  destruct (N.to_uint n); [contradiction|..]; reflexivity.
Qed.

Lemma of_N_injective (n m : N) : of_N n = of_N m -> n = m.
Proof.
  unfold of_N. intros E.
  apply (f_equal NilEmpty.uint_of_string) in E. rewrite !NilEmpty.usu in E.
  inversion E as [E']. apply (f_equal N.of_uint) in E'.
  rewrite !DecimalN.Unsigned.of_to in E'. exact E'.
Qed.

Lemma map_of_N_injective (l m : list N) : map of_N l = map of_N m -> l = m.
Proof.
  revert m. induction l as [|x l IH]; intros [|y m] E; try discriminate; [reflexivity|].
  inversion E as [[Hx Hl]]. f_equal; [apply of_N_injective, Hx|apply IH, Hl].
Qed.

Lemma join_of_N_injective (l m : list N) :
  join " " (map of_N l) = join " " (map of_N m) -> l = m.
Proof.
  intros E. apply map_of_N_injective, join_injective; [| |exact E];
    apply Forall_map, Forall_forall; intros n _; apply of_N_ok.
Qed.

End StrFacts.

(* ================================================================= *)
(** ** Grouping in the IOS compiler *)

Module IosFacts.

Import Ios.

Lemma policy_eqb_eq (a b : policy) : policy_eqb a b = true <-> a = b.
Proof.
  destruct a as [[a0 a1] a2], b as [[b0 b1] b2]. cbn.
  rewrite !andb_true_iff, !String.eqb_eq. split.
  - intros [[-> ->] ->]. reflexivity.
  - intros E. inversion E. auto.
Qed.

Lemma policy_eqb_refl (a : policy) : policy_eqb a a = true.
Proof. apply policy_eqb_eq. reflexivity. Qed.

Lemma policy_eqb_neq (a b : policy) : policy_eqb a b = false <-> a <> b.
Proof.
  rewrite <- policy_eqb_eq. destruct (policy_eqb a b); split; congruence.
Qed.

Lemma policy_eqb_sym (a b : policy) : policy_eqb a b = policy_eqb b a.
Proof.
  destruct (policy_eqb b a) eqn:E.
  - apply policy_eqb_eq. apply policy_eqb_eq in E. congruence.
  - apply policy_eqb_neq. apply policy_eqb_neq in E. congruence.
Qed.

Lemma existsb_policy (k : policy) (s : list policy) :
  existsb (policy_eqb k) s = true <-> In k s.
Proof.
  rewrite existsb_exists. split.
  - intros [x [Hx E]]. apply policy_eqb_eq in E. subst. exact Hx.
  - intros H. exists k. split; [exact H|apply policy_eqb_refl].
Qed.

Lemma existsb_policy_false (k : policy) (s : list policy) :
  existsb (policy_eqb k) s = false <-> ~ In k s.
Proof.
  rewrite <- existsb_policy. destruct (existsb (policy_eqb k) s); split; congruence.
Qed.

(** *** Keys in first-seen order *)

Lemma set_add_in (s : list policy) (x k : policy) :
  In k (set_add policy_eqb s x) <-> In k s \/ k = x.
Proof.
  unfold set_add. destruct (existsb (policy_eqb x) s) eqn:E.
  - apply existsb_policy in E. split; [auto|]. intros [H| ->]; assumption.
  - rewrite in_app_iff. cbn. split; intros [H|H]; auto.
    + destruct H as [H|[]]; auto.
Qed.

Lemma set_add_nodup (s : list policy) (x : policy) :
  NoDup s -> NoDup (set_add policy_eqb s x).
Proof.
  intros H. unfold set_add. destruct (existsb (policy_eqb x) s) eqn:E; [exact H|].
  apply existsb_policy_false in E.
  apply NoDup_app; [exact H|repeat constructor; intros []|].
  intros k Hk [<-|[]]. contradiction.
Qed.

Lemma first_seen_snoc (keys : list policy) (k : policy) :
  first_seen (keys +++ [k]) = set_add policy_eqb (first_seen keys) k.
Proof. unfold first_seen, set_of. rewrite fold_left_app. reflexivity. Qed.

Lemma first_seen_in (keys : list policy) (k : policy) :
  In k (first_seen keys) <-> In k keys.
Proof.
  induction keys as [|x keys IH] using rev_ind.
  - reflexivity.
  - rewrite first_seen_snoc, set_add_in, in_app_iff, IH. cbn. intuition congruence.
Qed.

Lemma first_seen_nodup (keys : list policy) : NoDup (first_seen keys).
Proof.
  induction keys as [|x keys IH] using rev_ind.
  - constructor.
  - rewrite first_seen_snoc. apply set_add_nodup, IH.
Qed.

(** *** [routeDict] is the partition by key *)

Lemma append_to_groups (keys : list policy) (g : policy -> list IPv4Network)
    (k : policy) (v : IPv4Network) :
  NoDup keys ->
  append_to (map (fun k' => (k', g k')) keys) k v
  = if existsb (policy_eqb k) keys
    then map (fun k' => (k', if policy_eqb k' k then g k' +++ [v] else g k')) keys
    else map (fun k' => (k', g k')) keys +++ [(k, [v])].
Proof.
  induction keys as [|a keys IH]; intros Hnd; [reflexivity|].
  inversion Hnd as [|? ? Ha Hkeys]; subst.
  cbn [map append_to existsb]. rewrite (policy_eqb_sym k a).
  destruct (policy_eqb a k) eqn:E.
  - apply policy_eqb_eq in E. subst a. cbn [orb]. f_equal.
    apply map_ext_in. intros k' Hk'.
    assert (Hne : policy_eqb k' k = false)
      by (apply policy_eqb_neq; intros ->; contradiction).
    rewrite Hne. reflexivity.
  - cbn [orb]. rewrite (IH Hkeys).
    destruct (existsb (policy_eqb k) keys); reflexivity.
Qed.

Lemma members_snoc (routes : list Route) (route : Route) (k : policy) :
  members (routes +++ [route]) k
  = members routes k
    +++ (if policy_eqb (policy_of route) k then [network route] else []).
Proof.
  unfold members. rewrite filter_app, map_app. cbn [filter].
  destruct (policy_eqb (policy_of route) k); reflexivity.
Qed.

Lemma members_absent (routes : list Route) (k : policy) :
  ~ In k (map policy_of routes) -> members routes k = [].
Proof.
  unfold members. induction routes as [|r routes IH]; [reflexivity|].
  cbn [map filter In]. intros H.
  assert (E : policy_eqb (policy_of r) k = false)
    by (apply policy_eqb_neq; intros Heq; apply H; left; exact Heq).
  rewrite E. apply IH. intros Hin. apply H. right. exact Hin.
Qed.

Lemma group_routes_snoc (routes : list Route) (route : Route) :
  group_routes (routes +++ [route])
  = append_to (group_routes routes) (policy_of route) (network route).
Proof. unfold group_routes. rewrite fold_left_app. reflexivity. Qed.

Lemma groups_by_key_snoc (routes : list Route) (route : Route) :
  groups_by_key (routes +++ [route])
  = append_to (groups_by_key routes) (policy_of route) (network route).
Proof.
  unfold groups_by_key at 2.
  rewrite (append_to_groups _ (members routes) _ _ (first_seen_nodup _)).
  unfold groups_by_key. rewrite map_app. cbn [map].
  rewrite first_seen_snoc. unfold set_add.
  destruct (existsb (policy_eqb (policy_of route)) (first_seen (map policy_of routes)))
    eqn:E.
  - apply map_ext. intros k. rewrite members_snoc, (policy_eqb_sym k).
    destruct (policy_eqb (policy_of route) k); [reflexivity|].
    rewrite app_nil_r. reflexivity.
  - apply existsb_policy_false in E. rewrite map_app. cbn [map]. f_equal.
    + apply map_ext_in. intros k Hk. rewrite members_snoc.
      assert (Hne : policy_eqb (policy_of route) k = false)
        by (apply policy_eqb_neq; intros <-; contradiction).
      rewrite Hne, app_nil_r. reflexivity.
    + rewrite members_snoc, policy_eqb_refl, members_absent; [reflexivity|].
      rewrite <- first_seen_in. exact E.
Qed.

(** The dictionary filled by the second loop of [config_ios] is the
    partition by key of the specification. *)
Lemma group_routes_by_key (routes : list Route) :
  group_routes routes = groups_by_key routes.
Proof.
  induction routes as [|route routes IH] using rev_ind; [reflexivity|].
  rewrite group_routes_snoc, groups_by_key_snoc, IH. reflexivity.
Qed.

Lemma group_keys (routes : list Route) :
  map fst (group_routes routes) = first_seen (map policy_of routes).
Proof.
  rewrite group_routes_by_key. unfold groups_by_key.
  rewrite map_map. cbn [fst]. apply map_id.
Qed.

Lemma group_count (routes : list Route) :
  List.length (group_routes routes) = List.length (first_seen (map policy_of routes)).
Proof. rewrite <- group_keys, length_map. reflexivity. Qed.

(** *** Every route is listed once *)

Lemma append_to_networks (routeDict : list (policy * list IPv4Network))
    (k : policy) (v : IPv4Network) :
  Permutation (List.concat (map snd (append_to routeDict k v)))
              (v :: List.concat (map snd routeDict)).
Proof.
  induction routeDict as [|[k' vs] rest IH]; [reflexivity|].
  cbn [append_to]. destruct (policy_eqb k' k); cbn [map snd List.concat].
  - rewrite <- app_assoc. cbn [List.app]. symmetry. apply Permutation_middle.
  - rewrite IH. symmetry. apply Permutation_middle.
Qed.

Lemma group_networks (routes : list Route) :
  Permutation (List.concat (map snd (group_routes routes))) (map network routes).
Proof.
  induction routes as [|route routes IH] using rev_ind; [reflexivity|].
  rewrite group_routes_snoc, append_to_networks, IH, map_app. cbn [map].
  apply Permutation_cons_append.
Qed.

(** *** Counting the emitted lines *)

Lemma count_lines_app (start : string) (l m : list string) :
  count_lines start (l +++ m) = count_lines start l + count_lines start m.
Proof. unfold count_lines. rewrite filter_app, length_app. reflexivity. Qed.

Lemma count_lines_none (start : string) (l : list string) :
  (forall line, In line l -> String.prefix start line = false) ->
  count_lines start l = 0.
Proof.
  unfold count_lines. induction l as [|x l IH]; intros H; [reflexivity|].
  cbn [filter]. rewrite (H x (or_introl eq_refl)). apply IH.
  intros line Hl. apply H. right. exact Hl.
Qed.

Lemma count_lines_all (start : string) (l : list string) :
  (forall line, In line l -> String.prefix start line = true) ->
  count_lines start l = List.length l.
Proof.
  unfold count_lines. induction l as [|x l IH]; intros H; [reflexivity|].
  cbn [filter]. rewrite (H x (or_introl eq_refl)). cbn [List.length]. f_equal. apply IH.
  intros line Hl. apply H. right. exact Hl.
Qed.

Lemma static_lines_start (vrf : string) (routes : list Route) (line : string) :
  In line (map (static_route (if Str.truthy vrf then "ip route vrf " ++ vrf else "ip route"))
               routes) ->
  String.prefix "route-map " line = false /\ String.prefix "ip prefix-list " line = false.
Proof.
  rewrite in_map_iff. intros [route [<- _]]. unfold static_route.
  destruct (Str.truthy vrf); split; reflexivity.
Qed.

Lemma enumerate_length {A : Type} (l : list A) :
  List.length (enumerate l) = List.length l.
Proof. unfold enumerate. rewrite length_combine, length_seq. lia. Qed.

Lemma prefix_append (s t : string) : String.prefix s (s ++ t) = true.
Proof.
  induction s as [|a s IH]; [destruct t; reflexivity|].
  cbn. destruct (ascii_dec a a) as [_|Hne]; [exact IH|contradiction].
Qed.

Lemma prefix_list_entries_start (name : string) (entries : list (nat * IPv4Network))
    (line : string) :
  In line (map (prefix_list_entry name) entries) ->
  String.prefix "route-map " line = false /\ String.prefix "ip prefix-list " line = true.
Proof.
  rewrite in_map_iff. intros [[i n] [<- _]]. split; [reflexivity|].
  unfold prefix_list_entry. apply prefix_append.
Qed.

(** One entry of [routeDict] gives one route-map clause and one prefix-list
    line for each of its networks. *)
Lemma group_lines_count (localAS : Z) (index : nat) (value : policy)
    (networks : list IPv4Network) :
  count_lines "route-map " (group_lines localAS (index, (value, networks))) = 1
  /\ count_lines "ip prefix-list " (group_lines localAS (index, (value, networks)))
     = List.length networks.
Proof.
  destruct value as [[value0 value1] value2]. unfold group_lines.
  rewrite !count_lines_app.
  set (entries := map (prefix_list_entry ("ROUTEGEN-PL" ++ Str.of_nat (index + 1)))
                      (enumerate networks)).
  assert (H1 : count_lines "route-map " entries = 0).
  { apply count_lines_none. intros line Hl.
    apply (prefix_list_entries_start _ _ _ Hl). }
  assert (H2 : count_lines "ip prefix-list " entries = List.length networks).
  { rewrite count_lines_all.
    - unfold entries. rewrite length_map, enumerate_length. reflexivity.
    - intros line Hl. apply (prefix_list_entries_start _ _ _ Hl). }
  rewrite H1, H2.
  destruct (Str.truthy value0), (Str.truthy value1), (negb (String.eqb value2 "igp")),
    (localAS >? 0)%Z; split; cbn; lia.
Qed.

Lemma groups_lines_count (localAS : Z) (groups : list (nat * (policy * list IPv4Network))) :
  count_lines "route-map " (flat_map (group_lines localAS) groups) = List.length groups
  /\ count_lines "ip prefix-list " (flat_map (group_lines localAS) groups)
     = List.length (List.concat (map (fun g => snd (snd g)) groups)).
Proof.
  induction groups as [|[index [value networks]] groups [IH1 IH2]]; [split; reflexivity|].
  cbn [flat_map map List.concat List.length snd]. rewrite !count_lines_app, IH1, IH2, length_app.
  destruct (group_lines_count localAS index value networks) as [-> ->].
  split; reflexivity.
Qed.

Lemma enumerate_values {A : Type} (l : list A) : map snd (enumerate l) = l.
Proof.
  unfold enumerate. generalize 0. induction l as [|x l IH]; intros n; [reflexivity|].
  cbn. f_equal. apply IH.
Qed.

(** The emitted lines hold one route-map clause for each entry of
    [routeDict] and one prefix-list line for each route. *)
Lemma config_lines_count (routes : list Route) (localAS : Z) (vrf : string) :
  count_lines "route-map " (config_lines routes localAS vrf)
  = List.length (group_routes routes)
  /\ count_lines "ip prefix-list " (config_lines routes localAS vrf)
     = List.length routes.
Proof.
  unfold config_lines. rewrite !count_lines_app.
  destruct (groups_lines_count localAS (enumerate (group_routes routes))) as [-> ->].
  rewrite !count_lines_none, enumerate_length;
    try (intros line Hl; apply (static_lines_start _ _ _ Hl)).
  split; [reflexivity|]. cbn [Nat.add].
  rewrite <- (map_map snd snd), enumerate_values.
  rewrite (Permutation_length (group_networks routes)), length_map. reflexivity.
Qed.

(** *** Keys and attribute triples *)

Lemma policy_of_key (route : Route) :
  policy_of route = key_of_attributes (attributes route).
Proof. reflexivity. Qed.

Lemma communities_ok_forall (comms : list string) :
  forallb community_ok comms = true ->
  Forall (fun s => Str.truthy s = true /\ blank_free s) comms.
Proof.
  rewrite forallb_forall, Forall_forall. intros H s Hs.
  specialize (H s Hs). unfold community_ok in H.
  apply andb_true_iff in H. destruct H as [H1 H2].
  split; [exact H1|]. unfold blank_free. apply negb_true_iff. exact H2.
Qed.

(** On triples with well-formed communities the key determines the triple. *)
Lemma key_of_attributes_injective (a b : list N * list string * string) :
  forallb community_ok (snd (fst a)) = true ->
  forallb community_ok (snd (fst b)) = true ->
  key_of_attributes a = key_of_attributes b -> a = b.
Proof.
  destruct a as [[path comms] org], b as [[path' comms'] org']. cbn [fst snd].
  intros Ha Hb E. unfold key_of_attributes in E. inversion E as [[Hpath Hcomms Horg]].
  apply StrFacts.join_of_N_injective in Hpath.
  apply StrFacts.join_injective in Hcomms; try (apply communities_ok_forall; assumption).
  subst. reflexivity.
Qed.

Lemma same_key_same_attributes (r1 r2 : Route) :
  communities_ok r1 = true -> communities_ok r2 = true ->
  (policy_of r1 = policy_of r2 <-> attributes r1 = attributes r2).
Proof.
  intros H1 H2. rewrite !policy_of_key. split.
  - apply key_of_attributes_injective; assumption.
  - intros ->. reflexivity.
Qed.

Lemma distinct_keys_count (routes : list Route) :
  forallb communities_ok routes = true ->
  List.length (first_seen (map policy_of routes))
  = List.length (distinct_attributes routes).
Proof.
  intros Hok. rewrite forallb_forall in Hok.
  rewrite <- (length_map key_of_attributes (distinct_attributes routes)).
  apply Permutation_length, NoDup_Permutation.
  - apply first_seen_nodup.
  - apply Finite.Injective_map_NoDup_in; [|apply NoDup_nodup].
    unfold distinct_attributes. intros a b Ha Hb.
    rewrite nodup_In, in_map_iff in Ha, Hb.
    destruct Ha as [r1 [<- Hr1]], Hb as [r2 [<- Hr2]].
    apply key_of_attributes_injective; [apply (Hok r1 Hr1)|apply (Hok r2 Hr2)].
  - intros k. rewrite first_seen_in. unfold distinct_attributes.
    rewrite !in_map_iff. split.
    + intros [r [<- Hr]]. exists (attributes r). split; [reflexivity|].
      apply nodup_In, in_map, Hr.
    + intros [a [<- Ha]]. apply nodup_In, in_map_iff in Ha.
      destruct Ha as [r [<- Hr]]. exists r. split; [reflexivity|exact Hr].
Qed.

(** *** What the output depends on *)




(** *** The emitted prefix-lists and route-map clauses *)

Lemma filter_flat_map {A B : Type} (f : B -> bool) (g : A -> list B) (l : list A) :
  filter f (flat_map g l) = flat_map (fun x => filter f (g x)) l.
Proof.
  induction l as [|x l IH]; [reflexivity|].
  cbn [flat_map]. rewrite filter_app, IH. reflexivity.
Qed.

Lemma filter_nothing {A : Type} (f : A -> bool) (l : list A) :
  (forall x, In x l -> f x = false) -> filter f l = [].
Proof.
  induction l as [|x l IH]; intros H; [reflexivity|].
  cbn [filter]. rewrite (H x (or_introl eq_refl)). apply IH.
  intros y Hy. apply H. right. exact Hy.
Qed.

Lemma filter_everything {A : Type} (f : A -> bool) (l : list A) :
  (forall x, In x l -> f x = true) -> filter f l = l.
Proof.
  induction l as [|x l IH]; intros H; [reflexivity|].
  cbn [filter]. rewrite (H x (or_introl eq_refl)). f_equal. apply IH.
  intros y Hy. apply H. right. exact Hy.
Qed.

Lemma flat_map_of_map {A B C : Type} (g : B -> list C) (h : A -> B) (l : list A) :
  flat_map g (map h l) = flat_map (fun x => g (h x)) l.
Proof.
  induction l as [|x l IH]; [reflexivity|]. cbn [map flat_map]. rewrite IH. reflexivity.
Qed.

Lemma enumerate_map {A B : Type} (f : A -> B) (l : list A) :
  enumerate (map f l) = map (fun p => (fst p, f (snd p))) (enumerate l).
Proof.
  unfold enumerate. rewrite length_map. generalize 0.
  induction l as [|x l IH]; intros n; [reflexivity|].
  cbn [List.length seq map combine fst snd]. f_equal. apply IH.
Qed.

Lemma static_line_shape (vrf : string) (routes : list Route) (line : string) :
  In line (map (static_route (if Str.truthy vrf then "ip route vrf " ++ vrf else "ip route"))
               routes) ->
  exists rest, line = "ip route " ++ rest.
Proof.
  rewrite in_map_iff. intros [route [<- _]]. unfold static_route.
  destruct (Str.truthy vrf); eexists; reflexivity.
Qed.

(** The prefix-list lines of one entry of [routeDict]. *)
Lemma group_prefix_list_lines (localAS : Z) (index : nat) (value : policy)
    (networks : list IPv4Network) :
  filter (String.prefix "ip prefix-list ") (group_lines localAS (index, (value, networks)))
  = map (fun jn : nat * IPv4Network =>
           "ip prefix-list ROUTEGEN-PL" ++ Str.of_nat (index + 1)
           ++ " seq " ++ Str.of_nat (fst jn + 1) ++ " permit " ++ to_str (snd jn))
        (enumerate networks).
Proof.
  destruct value as [[value0 value1] value2]. unfold group_lines.
  rewrite !filter_app, filter_everything
    by (intros line Hl; apply (prefix_list_entries_start _ _ _ Hl)).
  transitivity (map (prefix_list_entry ("ROUTEGEN-PL" ++ Str.of_nat (index + 1)))
                    (enumerate networks) +++ []).
  - f_equal.
    destruct (Str.truthy value0), (Str.truthy value1),
      (negb (String.eqb value2 "igp")), (localAS >? 0)%Z; reflexivity.
  - rewrite app_nil_r. apply map_ext. intros [j n]. reflexivity.
Qed.

(** The route-map clause of one entry of [routeDict]. *)
Lemma group_route_map_lines (localAS : Z) (index : nat) (value : policy)
    (networks : list IPv4Network) :
  filter route_map_line (group_lines localAS (index, (value, networks)))
  = [ "route-map ROUTEGEN-RM permit " ++ Str.of_nat (index + 1);
      "  match ip address prefix-list ROUTEGEN-PL" ++ Str.of_nat (index + 1) ].
Proof.
  destruct value as [[value0 value1] value2]. unfold group_lines.
  rewrite !filter_app, filter_nothing.
  - destruct (Str.truthy value0), (Str.truthy value1),
      (negb (String.eqb value2 "igp")), (localAS >? 0)%Z; reflexivity.
  - intros line Hl. apply in_map_iff in Hl. destruct Hl as [[j n] [<- _]]. reflexivity.
Qed.

(** A filter of the configuration that drops the static routes is the
    filter of the lines of each group, the groups being those of the
    partition by key in first-seen order. *)
Lemma filter_config_lines (keep : string -> bool) (routes : list Route)
    (localAS : Z) (vrf : string) :
  (forall rest, keep ("ip route " ++ rest) = false) ->
  filter keep (config_lines routes localAS vrf)
  = flat_map
      (fun ik : nat * policy =>
         filter keep (group_lines localAS (fst ik, (snd ik, members routes (snd ik)))))
      (enumerate (first_seen (map policy_of routes))).
Proof.
  intros Hstatic. unfold config_lines. rewrite filter_app, filter_nothing.
  - cbn [List.app]. rewrite filter_flat_map, group_routes_by_key. unfold groups_by_key.
    rewrite enumerate_map, flat_map_of_map. reflexivity.
  - intros line Hl. destruct (static_line_shape _ _ _ Hl) as [rest ->]. apply Hstatic.
Qed.

Lemma config_prefix_lists (routes : list Route) (localAS : Z) (vrf : string) :
  filter (String.prefix "ip prefix-list ") (config_lines routes localAS vrf)
  = prefix_list_lines routes.
Proof.
  rewrite filter_config_lines by reflexivity. unfold prefix_list_lines.
  apply flat_map_ext. intros [i k]. cbn [fst snd]. apply group_prefix_list_lines.
Qed.

Lemma config_route_maps (routes : list Route) (localAS : Z) (vrf : string) :
  filter route_map_line (config_lines routes localAS vrf) = route_map_lines routes.
Proof.
  rewrite filter_config_lines by reflexivity. unfold route_map_lines.
  apply flat_map_ext. intros [i k]. cbn [fst snd]. apply group_route_map_lines.
Qed.

End IosFacts.

(* ================================================================= *)
(** ** Grouping correctness and determinism *)

(** C6 (amended): for every route list compiled by the IOS compiler, the
    entries of [routeDict] are the partition of the routes by grouping key
    (the joined AS-path string, the joined communities string, the origin) in
    first-seen order, so two routes land in the same group iff their keys are
    equal.  The prefix-list lines of the emitted configuration are, for the
    group of index i (from 1, in first-seen order of the keys), the entries
    [ip prefix-list ROUTEGEN-PLi seq j permit <network>] of the networks of
    the routes with that key, j counting from 1 in input order; its route-map
    lines are, for each group in that order, [route-map ROUTEGEN-RM permit i]
    followed by the match on ROUTEGEN-PLi.  So there is one route-map clause
    for each distinct key and one prefix-list line for each route, in the
    list of the group of its key.  When every community string is
    non-empty and has no blank, equal keys mean equal
    [(aspath, communities, origin)] triples and the number of groups is the
    number of distinct triples. *)
Theorem ios_groups_by_key (routes : list Route) (localAS : Z) (vrf : string) :
  Ios.group_routes routes = groups_by_key routes
  /\ filter (String.prefix "ip prefix-list ") (Ios.config_lines routes localAS vrf)
     = prefix_list_lines routes
  /\ filter route_map_line (Ios.config_lines routes localAS vrf) = route_map_lines routes
  /\ count_lines "route-map " (Ios.config_lines routes localAS vrf)
     = List.length (first_seen (map Ios.policy_of routes))
  /\ count_lines "ip prefix-list " (Ios.config_lines routes localAS vrf)
     = List.length routes
  /\ Permutation (List.concat (map snd (Ios.group_routes routes))) (map network routes)
  /\ (forallb communities_ok routes = true ->
      count_lines "route-map " (Ios.config_lines routes localAS vrf)
      = List.length (distinct_attributes routes)
      /\ forall r1 r2 : Route,
           In r1 routes -> In r2 routes ->
           (Ios.policy_of r1 = Ios.policy_of r2 <-> attributes r1 = attributes r2)).
Proof.
  destruct (IosFacts.config_lines_count routes localAS vrf) as [Hmaps Hlists].
  split; [apply IosFacts.group_routes_by_key|].
  split; [apply IosFacts.config_prefix_lists|].
  split; [apply IosFacts.config_route_maps|].
  split; [rewrite Hmaps; apply IosFacts.group_count|].
  split; [exact Hlists|].
  split; [apply IosFacts.group_networks|].
  intros Hok. split.
  - rewrite Hmaps, IosFacts.group_count. apply IosFacts.distinct_keys_count, Hok.
  - intros r1 r2 H1 H2. rewrite forallb_forall in Hok.
    apply IosFacts.same_key_same_attributes; apply Hok; assumption.
Qed.

Lemma ios_groups_by_key_witness :
  forallb communities_ok [Examples.route_a; Examples.route_b; Examples.route_c] = true
  /\ count_lines "route-map "
       (Ios.config_lines [Examples.route_a; Examples.route_b; Examples.route_c] (-1) "")
     = List.length (distinct_attributes [Examples.route_a; Examples.route_b; Examples.route_c]).
Proof.
  split; [reflexivity|].
  destruct (ios_groups_by_key [Examples.route_a; Examples.route_b; Examples.route_c] (-1) "")
    as (_ & _ & _ & _ & _ & _ & H).
  apply H. reflexivity.
Defined.

(** C6, as stated, fails: two routes whose community lists differ and join
    to the same string have distinct triples and land in one group, with one
    route-map clause. *)
Lemma joined_communities_share_group :
  attributes Examples.route_joined <> attributes Examples.route_split
  /\ List.length (distinct_attributes [Examples.route_joined; Examples.route_split]) = 2
  /\ Ios.group_routes [Examples.route_joined; Examples.route_split]
     = [ (("", "65000:100 65000:200", "igp"), [ipv4 10 0 0 0 24; ipv4 10 0 1 0 24]) ]
  /\ count_lines "route-map "
       (Ios.config_lines [Examples.route_joined; Examples.route_split] (-1) "") = 1.
Proof.
  split; [discriminate|].
  repeat split; vm_compute; reflexivity.
Qed.

(** Two routes with one network and different origins: the network is
    listed in the prefix-lists of two groups, once for each route. *)
Example same_network_two_groups :
  Ios.group_routes
    [ {| network := ipv4 10 0 0 0 24; aspath := []; communities := []; origin := "igp" |};
      {| network := ipv4 10 0 0 0 24; aspath := []; communities := []; origin := "egp" |} ]
  = [ (("", "", "igp"), [ipv4 10 0 0 0 24]); (("", "", "egp"), [ipv4 10 0 0 0 24]) ].
Proof. vm_compute. reflexivity. Qed.



(* ================================================================= *)
(** * Further properties *)

(** ** The walk of the validator over a mapping or a list *)

Section WalkFacts.

Variable re_fullmatch : string -> string -> option bool.

Lemma caller_mapping (entries : list (string * pyval)) (schema types : pyval) :
  basic_validation_caller re_fullmatch (VDict entries) schema types
  = match basic_validation_dict entries schema with
    | Raise e => Raise e
    | Ok false => Ok false
    | Ok true => mapping_loop re_fullmatch schema types entries
    end.
Proof.
  cbn [basic_validation_caller].
  destruct (basic_validation_dict entries schema) as [[|]|e]; try reflexivity.
  induction entries as [|[item dataContent] rest IH]; [reflexivity|].
  cbn [mapping_loop]. unfold verdict.
  destruct (getitem schema item) as [dataSchema|]; [|reflexivity].
  destruct (getitem types item) as [dataType|]; [|reflexivity].
  destruct (check_item re_fullmatch (basic_validation_caller re_fullmatch)
              dataContent dataSchema dataType) as [[|]|]; try reflexivity.
  exact IH.
Qed.

Lemma caller_sequence (elements : list pyval) (schema types : pyval) :
  basic_validation_caller re_fullmatch (VList elements) schema types
  = match basic_validation_list elements with
    | Raise e => Raise e
    | Ok false => Ok false
    | Ok true => sequence_loop re_fullmatch schema types elements
    end.
Proof.
  cbn [basic_validation_caller].
  destruct (basic_validation_list elements) as [[|]|e]; try reflexivity.
  induction elements as [|dataContent rest IH]; [reflexivity|].
  cbn [sequence_loop]. unfold verdict.
  destruct (getitem0 schema) as [dataSchema|]; [|reflexivity].
  destruct (getitem0 types) as [dataType|]; [|reflexivity].
  destruct (check_item re_fullmatch (basic_validation_caller re_fullmatch)
              dataContent dataSchema dataType) as [[|]|]; try reflexivity.
  exact IH.
Qed.

Lemma mapping_loop_true (schema types : pyval) (items : list (string * pyval)) :
  mapping_loop re_fullmatch schema types items = Ok true
  <-> Forall (entry_passes re_fullmatch schema types) items.
Proof.
  induction items as [|[item dataContent] rest IH].
  - split; [constructor|reflexivity].
  - cbn [mapping_loop]. split.
    + intros H.
      destruct (getitem schema item) as [dataSchema|] eqn:Hs; [|discriminate].
      destruct (getitem types item) as [dataType|] eqn:Ht; [|discriminate].
      destruct (verdict re_fullmatch dataContent dataSchema dataType) as [[|]|] eqn:Hv;
        try discriminate.
      constructor; [|apply IH, H].
      exists dataSchema, dataType. cbn [fst snd]. auto.
    + intros H. inversion H as [|? ? [dataSchema [dataType [Hs [Ht Hv]]]] Hrest]; subst.
      cbn [fst snd] in Hs, Ht, Hv. rewrite Hs, Ht, Hv. apply IH, Hrest.
Qed.

Lemma sequence_loop_true (schema types : pyval) (items : list pyval) :
  sequence_loop re_fullmatch schema types items = Ok true
  <-> Forall (element_passes re_fullmatch schema types) items.
Proof.
  induction items as [|dataContent rest IH].
  - split; [constructor|reflexivity].
  - cbn [sequence_loop]. split.
    + intros H.
      destruct (getitem0 schema) as [dataSchema|] eqn:Hs; [|discriminate].
      destruct (getitem0 types) as [dataType|] eqn:Ht; [|discriminate].
      destruct (verdict re_fullmatch dataContent dataSchema dataType) as [[|]|] eqn:Hv;
        try discriminate.
      constructor; [|apply IH, H].
      exists dataSchema, dataType. auto.
    + intros H. inversion H as [|? ? [dataSchema [dataType [Hs [Ht Hv]]]] Hrest]; subst.
      rewrite Hs, Ht, Hv. apply IH, Hrest.
Qed.

Lemma mapping_loop_stops (schema types : pyval) (front back : list (string * pyval))
    (item : string) (dataContent dataSchema dataType : pyval) :
  Forall (entry_passes re_fullmatch schema types) front ->
  getitem schema item = Ok dataSchema ->
  getitem types item = Ok dataType ->
  verdict re_fullmatch dataContent dataSchema dataType = Ok false ->
  mapping_loop re_fullmatch schema types (front +++ (item, dataContent) :: back) = Ok false.
Proof.
  intros Hfront Hs Ht Hv. induction Hfront as [|[k v] front [s [t [Hks [Hkt Hkv]]]] _ IH].
  - cbn [List.app mapping_loop]. rewrite Hs, Ht, Hv. reflexivity.
  - cbn [fst snd] in Hks, Hkt, Hkv. cbn [List.app mapping_loop].
    rewrite Hks, Hkt, Hkv. exact IH.
Qed.

Lemma sequence_loop_stops (schema types : pyval) (front back : list pyval)
    (dataContent dataSchema dataType : pyval) :
  Forall (element_passes re_fullmatch schema types) front ->
  getitem0 schema = Ok dataSchema ->
  getitem0 types = Ok dataType ->
  verdict re_fullmatch dataContent dataSchema dataType = Ok false ->
  sequence_loop re_fullmatch schema types (front +++ dataContent :: back) = Ok false.
Proof.
  intros Hfront Hs Ht Hv. induction Hfront as [|v front [s [t [Hks [Hkt Hkv]]]] _ IH].
  - cbn [List.app sequence_loop]. rewrite Hs, Ht, Hv. reflexivity.
  - cbn [List.app sequence_loop]. rewrite Hks, Hkt, Hkv. exact IH.
Qed.

(** The validator accepts a mapping exactly when the test of its keys
    passes and the loop finds every entry passing. *)
Lemma mapping_loop_accepts (entries : list (string * pyval)) (schema types : pyval) :
  basic_validation_caller re_fullmatch (VDict entries) schema types = Ok true
  <-> basic_validation_dict entries schema = Ok true
      /\ Forall (entry_passes re_fullmatch schema types) entries.
Proof.
  rewrite caller_mapping, <- mapping_loop_true.
  destruct (basic_validation_dict entries schema) as [[|]|e]; split;
    try (intros [H _]; discriminate); try discriminate; auto.
  intros [_ H]. exact H.
Qed.

(** The validator accepts a list exactly when the duplicate test passes and
    the loop finds every element passing. *)
Lemma sequence_loop_accepts (elements : list pyval) (schema types : pyval) :
  basic_validation_caller re_fullmatch (VList elements) schema types = Ok true
  <-> basic_validation_list elements = Ok true
      /\ Forall (element_passes re_fullmatch schema types) elements.
Proof.
  rewrite caller_sequence, <- sequence_loop_true.
  destruct (basic_validation_list elements) as [[|]|e]; split;
    try (intros [H _]; discriminate); try discriminate; auto.
  intros [_ H]. exact H.
Qed.

(** X3: the walk over a mapping stops at the first entry whose verdict is
    false: when the entries before it pass, the validator returns [False]
    whatever the entries after it are, also when one of them would raise. *)
Theorem mapping_fails_fast (schema types : pyval) (front back : list (string * pyval))
    (item : string) (dataContent dataSchema dataType : pyval) :
  basic_validation_dict (front +++ (item, dataContent) :: back) schema = Ok true ->
  Forall (entry_passes re_fullmatch schema types) front ->
  getitem schema item = Ok dataSchema ->
  getitem types item = Ok dataType ->
  verdict re_fullmatch dataContent dataSchema dataType = Ok false ->
  basic_validation_caller re_fullmatch
    (VDict (front +++ (item, dataContent) :: back)) schema types = Ok false.
Proof.
  intros Hdict Hfront Hs Ht Hv. rewrite caller_mapping, Hdict.
  apply (mapping_loop_stops schema types front back item dataContent dataSchema dataType);
    assumption.
Qed.

(** X4: the walk over a list stops at the first element whose verdict is
    false: when the elements before it pass, the validator returns [False]
    whatever the elements after it are. *)
Theorem sequence_fails_fast (schema types : pyval) (front back : list pyval)
    (dataContent dataSchema dataType : pyval) :
  basic_validation_list (front +++ dataContent :: back) = Ok true ->
  Forall (element_passes re_fullmatch schema types) front ->
  getitem0 schema = Ok dataSchema ->
  getitem0 types = Ok dataType ->
  verdict re_fullmatch dataContent dataSchema dataType = Ok false ->
  basic_validation_caller re_fullmatch
    (VList (front +++ dataContent :: back)) schema types = Ok false.
Proof.
  intros Hlist Hfront Hs Ht Hv. rewrite caller_sequence, Hlist.
  apply (sequence_loop_stops schema types front back dataContent dataSchema dataType);
    assumption.
Qed.

End WalkFacts.

Lemma mapping_fails_fast_witness :
  basic_validation_caller Re.fullmatch
    (VDict [("hostname", vstr "edge1"); ("asn", vstr "none"); ("vrf", vint 7)])
    (VDict [("required", VList []);
            ("hostname", Examples.regex_node "[a-z0-9-]+");
            ("asn", Examples.regex_node "[0-9]+");
            ("vrf", Examples.regex_node "[0-9]+")])
    (VDict [("hostname", vstr ""); ("asn", vstr "")])
  = Ok false.
Proof.
  apply (mapping_fails_fast Re.fullmatch _ _
           [("hostname", vstr "edge1")] [("vrf", vint 7)]
           "asn" (vstr "none") (Examples.regex_node "[0-9]+") (vstr "")).
  - vm_compute. reflexivity.
  - constructor; [|constructor].
    exists (Examples.regex_node "[a-z0-9-]+"), (vstr "").
    repeat split; vm_compute; reflexivity.
  - reflexivity.
  - reflexivity.
  - vm_compute. reflexivity.
Defined.

Lemma sequence_fails_fast_witness :
  basic_validation_caller Re.fullmatch
    (VList [vstr "10.0.0.0/24"; vstr "ten"; vint 3])
    (VList [Examples.regex_node "[0-9./]+"])
    (VList [vstr ""])
  = Ok false.
Proof.
  apply (sequence_fails_fast Re.fullmatch _ _
           [vstr "10.0.0.0/24"] [vint 3]
           (vstr "ten") (Examples.regex_node "[0-9./]+") (vstr "")).
  - vm_compute. reflexivity.
  - constructor; [|constructor].
    exists (Examples.regex_node "[0-9./]+"), (vstr "").
    repeat split; vm_compute; reflexivity.
  - reflexivity.
  - reflexivity.
  - vm_compute. reflexivity.
Defined.

(* ================================================================= *)
(** ** Keys of a mapping *)

Section KeyFacts.

Variable re_fullmatch : string -> string -> option bool.

Lemma mapM_in_dict_names (config : list (string * pyval)) (names : list string) :
  mapM (fun x => in_dict x config) (map vstr names) = Ok (map (dict_has config) names).
Proof.
  induction names as [|name names IH]; [reflexivity|].
  cbn [map mapM in_dict vstr]. cbn [map mapM] in IH. rewrite IH. reflexivity.
Qed.

(** With a mapping schema node that declares every key of the value and
    lists its required keys as strings, the test of the keys succeeds exactly
    when every required key is present. *)
Lemma basic_validation_dict_required (config schema : list (string * pyval))
    (names : list string) :
  forallb (dict_has schema) (keys config) = true ->
  dict_get schema "required" = Some (VList (map vstr names)) ->
  basic_validation_dict config (VDict schema) = Ok (forallb (dict_has config) names).
Proof.
  intros Hkeys Hreq.
  rewrite (basic_validation_dict_reads_required _ _ Hkeys).
  unfold getitem. rewrite Hreq. cbn [bind iter].
  rewrite mapM_in_dict_names. cbn [bind]. rewrite all_map.
  destruct (forallb (dict_has config) names); reflexivity.
Qed.

(** X5: a mapping value with a key that the mapping schema node does not
    declare is rejected with [False], whatever the schema node requires and
    whatever the type template is. *)
Theorem undeclared_key_rejected (config schema : list (string * pyval)) (types : pyval) :
  forallb (dict_has schema) (keys config) = false ->
  basic_validation_caller re_fullmatch (VDict config) (VDict schema) types = Ok false.
Proof.
  intros H. rewrite caller_mapping, (basic_validation_dict_invalid_key _ _ H).
  reflexivity.
Qed.

(** X6: a mapping value all of whose keys are declared and which lacks one
    of the keys listed under [required] is rejected with [False], before any
    of its entries is looked at. *)
Theorem missing_required_key_rejected (config schema : list (string * pyval))
    (names : list string) (types : pyval) :
  forallb (dict_has schema) (keys config) = true ->
  dict_get schema "required" = Some (VList (map vstr names)) ->
  forallb (dict_has config) names = false ->
  basic_validation_caller re_fullmatch (VDict config) (VDict schema) types = Ok false.
Proof.
  intros Hkeys Hreq Hmiss.
  rewrite caller_mapping, (basic_validation_dict_required _ _ _ Hkeys Hreq), Hmiss.
  reflexivity.
Qed.

End KeyFacts.

Lemma undeclared_key_rejected_witness :
  basic_validation_caller Re.fullmatch
    (VDict [("hostname", vstr "edge1"); ("color", vstr "red")])
    Examples.basic_schema Examples.basic_types
  = Ok false.
Proof.
  apply (undeclared_key_rejected Re.fullmatch
           [("hostname", vstr "edge1"); ("color", vstr "red")]).
  reflexivity.
Defined.

Lemma missing_required_key_rejected_witness :
  basic_validation_caller Re.fullmatch
    (VDict [("asn", vint 65000)]) Examples.basic_schema (VDict [])
  = Ok false.
Proof.
  apply (missing_required_key_rejected Re.fullmatch
           [("asn", vint 65000)] _ ["hostname"] (VDict [])); reflexivity.
Defined.

(* ================================================================= *)
(** ** The duplicate test on lists *)

Section DistinctFacts.

Context {A : Type} (eqb : A -> A -> bool).
Hypothesis eqb_sym : forall x y : A, eqb x y = eqb y x.

Lemma forallb_not_in_snoc (s l : list A) (x : A) :
  forallb (fun y => negb (existsb (eqb y) (s +++ [x]))) l
  = forallb (fun y => negb (existsb (eqb y) s)) l && negb (existsb (eqb x) l).
Proof.
  induction l as [|y l IH]; [reflexivity|].
  cbn [forallb existsb]. rewrite IH, existsb_app. cbn [existsb].
  rewrite orb_false_r, (eqb_sym x y).
  destruct (existsb (eqb y) s), (eqb y x),
    (forallb (fun y0 => negb (existsb (eqb y0) s)) l), (existsb (eqb x) l); reflexivity.
Qed.

(** Folding a list into a set keeps every member exactly when no two
    members are equal and none is in the set already. *)
Lemma set_fold_keeps_all (l s : list A) :
  (List.length (fold_left (set_add eqb) l s) =? List.length s + List.length l)%nat
  = pairwise_distinct eqb l && forallb (fun x => negb (existsb (eqb x) s)) l.
Proof.
  revert s. induction l as [|x l IH]; intros s.
  - cbn. rewrite Nat.add_0_r. apply Nat.eqb_refl.
  - cbn [fold_left pairwise_distinct forallb List.length]. unfold set_add at 2.
    destruct (existsb (eqb x) s) eqn:E.
    + cbn [negb andb]. rewrite andb_false_r. apply Nat.eqb_neq.
      pose proof (set_fold_length eqb l s). lia.
    + replace (List.length s + S (List.length l))
        with (List.length (s +++ [x]) + List.length l)
        by (rewrite length_app; cbn [List.length]; lia).
      rewrite IH, forallb_not_in_snoc. cbn [negb andb].
      destruct (existsb (eqb x) l), (pairwise_distinct eqb l),
        (forallb (fun y => negb (existsb (eqb y) s)) l); reflexivity.
Qed.

Lemma set_of_keeps_all (l : list A) :
  (List.length (set_of eqb l) =? List.length l)%nat = pairwise_distinct eqb l.
Proof.
  unfold set_of.
  change (List.length l) with (List.length (@nil A) + List.length l).
  rewrite set_fold_keeps_all.
  assert (H : forallb (fun x => negb (existsb (eqb x) [])) l = true)
    by (apply forallb_forall; reflexivity).
  rewrite H, andb_true_r. reflexivity.
Qed.

End DistinctFacts.

Lemma scalar_eqb_sym (x y : scalar) : scalar_eqb x y = scalar_eqb y x.
Proof.
  destruct x as [|a|a|a], y as [|b|b|b]; cbn; try reflexivity;
    try apply Z.eqb_sym; try apply String.eqb_sym.
  destruct a, b; reflexivity.
Qed.

Lemma mapM_hashable_scalars (l : list scalar) :
  mapM hashable (map VScalar l) = Ok l.
Proof.
  induction l as [|x l IH]; [reflexivity|].
  cbn [map mapM hashable]. rewrite IH. reflexivity.
Qed.

(** X7: a list of scalars passes the duplicate test exactly when no two of
    its members are equal under Python's [==]; since [True == 1] and
    [False == 0], a boolean and the integer of the same value count as
    duplicates. *)
Theorem scalar_list_duplicates (l : list scalar) :
  basic_validation_list (map VScalar l) = Ok (pairwise_distinct scalar_eqb l)
  /\ basic_validation_list [vint 1; vbool true] = Ok false.
Proof.
  split; [|reflexivity].
  unfold basic_validation_list. rewrite mapM_hashable_scalars, length_map.
  rewrite (set_of_keeps_all scalar_eqb scalar_eqb_sym).
  destruct (pairwise_distinct scalar_eqb l); reflexivity.
Qed.

Lemma is_container_scalar (x : scalar) : is_container (VScalar x) = false.
Proof. destruct x; reflexivity. Qed.

Lemma mapM_hashable_unhashable (l : list pyval) :
  existsb is_container l = true -> mapM hashable l = Raise TypeError.
Proof.
  induction l as [|v l IH]; [discriminate|].
  destruct v as [x| |]; try reflexivity.
  cbn [existsb]. rewrite is_container_scalar. cbn [orb]. intros H.
  cbn [mapM hashable]. rewrite (IH H). reflexivity.
Qed.

Lemma items_tuple_dict (entries : list (string * pyval)) :
  (existsb (fun kv => is_container (snd kv)) entries = true ->
   items_tuple (VDict entries) = Raise TypeError)
  /\ (existsb (fun kv => is_container (snd kv)) entries = false ->
      exists t, items_tuple (VDict entries) = Ok t).
Proof.
  unfold items_tuple.
  induction entries as [|[k v] entries [IH1 IH2]];
    [split; [discriminate|intros _; exists []; reflexivity]|].
  cbn [existsb mapM snd fst].
  destruct v as [x| |]; try (split; [reflexivity|discriminate]).
  rewrite is_container_scalar. cbn [orb hashable]. split.
  - intros H. rewrite (IH1 H). reflexivity.
  - intros H. destruct (IH2 H) as [t Ht]. rewrite Ht. eexists. reflexivity.
Qed.

Lemma mapM_items_tuple_nested (l : list pyval) :
  forallb is_dict l = true ->
  existsb has_container_value l = true ->
  mapM items_tuple l = Raise TypeError.
Proof.
  induction l as [|v l IH]; [discriminate|].
  destruct v as [x|items|entries]; try discriminate.
  cbn [forallb existsb is_dict has_container_value andb]. intros Hd He.
  cbn [mapM]. destruct (items_tuple_dict entries) as [H1 H2].
  destruct (existsb (fun kv => is_container (snd kv)) entries) eqn:E.
  - rewrite (H1 eq_refl). reflexivity.
  - destruct (H2 eq_refl) as [t Ht]. rewrite Ht, (IH Hd He). reflexivity.
Qed.

Lemma mapM_items_tuple_mixed (l : list pyval) :
  existsb (fun v => negb (is_dict v)) l = true ->
  mapM items_tuple l = Raise AttributeError \/ mapM items_tuple l = Raise TypeError.
Proof.
  induction l as [|v l IH]; [discriminate|].
  destruct v as [x|items|entries]; try (intros _; left; reflexivity).
  cbn [existsb is_dict negb orb]. intros H. cbn [mapM].
  destruct (items_tuple_dict entries) as [H1 H2].
  destruct (existsb (fun kv => is_container (snd kv)) entries) eqn:E.
  - rewrite (H1 eq_refl). right. reflexivity.
  - destruct (H2 eq_refl) as [t Ht]. rewrite Ht.
    destruct (IH H) as [E'|E']; rewrite E'; [left|right]; reflexivity.
Qed.

Lemma is_dict_container (l : list pyval) :
  forallb is_dict l = true -> existsb has_container_value l = true ->
  existsb is_container l = true.
Proof.
  destruct l as [|v l]; [discriminate|].
  destruct v; try discriminate. reflexivity.
Qed.

Section ListErrors.

Variable re_fullmatch : string -> string -> option bool.

(** X9: a list of mappings in which some mapping has a list or a mapping
    among its values cannot be validated: the duplicate test hashes the
    values, and the validator raises [TypeError] whatever the schema and the
    type template are. *)
Theorem nested_value_in_list_raises (config : list pyval) (schema types : pyval) :
  forallb is_dict config = true ->
  existsb has_container_value config = true ->
  basic_validation_caller re_fullmatch (VList config) schema types = Raise TypeError.
Proof.
  intros Hd He. rewrite caller_sequence. unfold basic_validation_list.
  rewrite (mapM_hashable_unhashable _ (is_dict_container _ Hd He)).
  rewrite (mapM_items_tuple_nested _ Hd He). reflexivity.
Qed.

(** X10: a list with an unhashable element (a list or a mapping) and an
    element that is not a mapping, such as a list of lists or a mapping next
    to a string, makes the validator raise [AttributeError] or [TypeError]
    instead of returning a verdict. *)
Theorem mixed_list_raises (config : list pyval) (schema types : pyval) :
  existsb is_container config = true ->
  existsb (fun v => negb (is_dict v)) config = true ->
  basic_validation_caller re_fullmatch (VList config) schema types = Raise AttributeError
  \/ basic_validation_caller re_fullmatch (VList config) schema types = Raise TypeError.
Proof.
  intros Hc Hm. rewrite caller_sequence. unfold basic_validation_list.
  rewrite (mapM_hashable_unhashable _ Hc).
  destruct (mapM_items_tuple_mixed _ Hm) as [E|E]; rewrite E; [left|right]; reflexivity.
Qed.

End ListErrors.

Lemma nested_value_in_list_raises_witness :
  basic_validation_caller Re.fullmatch
    (VList [VDict [("address", vstr "192.0.2.1"); ("policies", VList [vstr "in"])]])
    (VList [VDict [("required", VList []);
                   ("address", Examples.regex_node "[0-9.]+");
                   ("policies", VList [Examples.regex_node "[a-z]+"])]])
    (VList [VDict [("address", vstr ""); ("policies", VList [vstr ""])]])
  = Raise TypeError.
Proof.
  apply (nested_value_in_list_raises Re.fullmatch); reflexivity.
Defined.

Lemma mixed_list_raises_witness :
  basic_validation_caller Re.fullmatch
    (VList [VList [vint 1; vint 2]; VList [vint 3]])
    (VList [VList [Examples.regex_node "[0-9]+"]])
    (VList [VList [vint 0]])
  = Raise AttributeError
  \/ basic_validation_caller Re.fullmatch
       (VList [VList [vint 1; vint 2]; VList [vint 3]])
       (VList [VList [Examples.regex_node "[0-9]+"]])
       (VList [VList [vint 0]])
     = Raise TypeError.
Proof.
  apply (mixed_list_raises Re.fullmatch); reflexivity.
Defined.

(* ================================================================= *)
(** ** Outcomes of the orchestrator *)

Section OutcomeFacts.

Variable re_fullmatch : string -> string -> option bool.

(** X11: when the generic validator rejects the [basic] section,
    [validateConfig] raises [ConfigValidationTestFailedError] carrying the
    description of the basic test. *)
Theorem validateConfig_rejected_section
    (config schema types config_section schema_section types_section : pyval) :
  getitem config "basic" = Ok config_section ->
  getitem schema "basic" = Ok schema_section ->
  getitem types "basic" = Ok types_section ->
  basic_validation_caller re_fullmatch config_section schema_section types_section
  = Ok false ->
  validateConfig re_fullmatch config schema types
  = Raise (ConfigValidationTestFailedError "Test to validate basic configuration").
Proof.
  intros Hc Hs Ht Hv.
  unfold validateConfig, enabledTests, run_tests, validate_basic, validate_base.
  rewrite Hc, Hs, Ht. cbn [bind]. rewrite Hv. reflexivity.
Qed.

(** X12: an exception raised while the [basic] section is looked up in one
    of the three documents, or by the generic validator on that section,
    leaves [validateConfig] unchanged: it is not turned into
    [ConfigValidationTestFailedError].  A configuration without the key
    [basic] thus ends in [KeyError]. *)
Theorem validateConfig_propagates (config schema types : pyval) (e : exn) :
  getitem config "basic" = Raise e
  \/ (exists config_section,
        getitem config "basic" = Ok config_section
        /\ getitem schema "basic" = Raise e)
  \/ (exists config_section schema_section,
        getitem config "basic" = Ok config_section
        /\ getitem schema "basic" = Ok schema_section
        /\ getitem types "basic" = Raise e)
  \/ (exists config_section schema_section types_section,
        getitem config "basic" = Ok config_section
        /\ getitem schema "basic" = Ok schema_section
        /\ getitem types "basic" = Ok types_section
        /\ basic_validation_caller re_fullmatch
             config_section schema_section types_section = Raise e) ->
  validateConfig re_fullmatch config schema types = Raise e.
Proof.
  unfold validateConfig, enabledTests, run_tests, validate_basic, validate_base.
  intros [Hc|[[cs [Hc Hs]]|[[cs [ss [Hc [Hs Ht]]]]|[cs [ss [ts [Hc [Hs [Ht Hv]]]]]]]]].
  - rewrite Hc. reflexivity.
  - rewrite Hc, Hs. reflexivity.
  - rewrite Hc, Hs, Ht. reflexivity.
  - rewrite Hc, Hs, Ht. cbn [bind]. rewrite Hv. reflexivity.
Qed.

End OutcomeFacts.

Lemma validateConfig_rejected_section_witness :
  validateConfig Re.fullmatch
    (VDict [("basic", VDict [("asn", vint 65000)])]) Examples.schema Examples.types
  = Raise (ConfigValidationTestFailedError "Test to validate basic configuration").
Proof.
  apply (validateConfig_rejected_section Re.fullmatch
           (VDict [("basic", VDict [("asn", vint 65000)])]) Examples.schema Examples.types
           (VDict [("asn", vint 65000)]) Examples.basic_schema Examples.basic_types);
    vm_compute; reflexivity.
Defined.

Lemma validateConfig_propagates_witness :
  validateConfig Re.fullmatch
    (VDict [("bgp", VDict [])]) Examples.schema Examples.types
  = Raise KeyError.
Proof.
  apply (validateConfig_propagates Re.fullmatch).
  left. reflexivity.
Defined.

Lemma append_injective (s a b : string) : s ++ a = s ++ b -> a = b.
Proof.
  induction s as [|c s IH]; cbn; intros H; [exact H|].
  inversion H as [H']. apply IH, H'.
Qed.

(** X14: the message of [ConfigValidationTestFailedError] identifies the
    failed test: two errors with the same message carry the same
    description. *)
Theorem error_message_identifies_test (test test' : string) :
  ConfigValidationTestFailedError_str test = ConfigValidationTestFailedError_str test' ->
  test = test'.
Proof.
  unfold ConfigValidationTestFailedError_str. apply append_injective.
Qed.

Lemma error_message_identifies_test_witness :
  ConfigValidationTestFailedError_str "Test to validate basic configuration"
  = "Test failed during configuration validation: Test to validate basic configuration"
  /\ "Test to validate basic configuration" = "Test to validate basic configuration".
Proof.
  split; [reflexivity|].
  apply (error_message_identifies_test
           "Test to validate basic configuration" "Test to validate basic configuration").
  reflexivity.
Defined.

(* ================================================================= *)
(** ** The lines of the IOS configuration *)

Module IosLines.

Import Ios.

Lemma count_lines_cons (start line : string) (lines : list string) :
  count_lines start (line :: lines)
  = (if String.prefix start line then 1 else 0) + count_lines start lines.
Proof.
  unfold count_lines. cbn [filter].
  destruct (String.prefix start line); reflexivity.
Qed.

(** Every static-route line starts with [ip route] and a blank. *)
Lemma static_line_start (vrf : string) (routes : list Route) (line : string) :
  In line (map (static_route (if Str.truthy vrf then "ip route vrf " ++ vrf else "ip route"))
               routes) ->
  exists rest, line = "ip route " ++ rest.
Proof.
  rewrite in_map_iff. intros [route [<- _]]. unfold static_route.
  destruct (Str.truthy vrf); eexists; reflexivity.
Qed.

Lemma prefix_list_entry_start (name : string) (entries : list (nat * IPv4Network))
    (line : string) :
  In line (map (prefix_list_entry name) entries) ->
  exists rest, line = "ip prefix-list " ++ rest.
Proof.
  rewrite in_map_iff. intros [[i n] [<- _]]. eexists. reflexivity.
Qed.

(** The lines of one entry of [routeDict] by kind: the three set clauses
    appear when their operand is not empty (not [igp] for the origin), the
    two BGP lines when [localAS] is positive. *)
Lemma group_lines_kinds (localAS : Z) (index : nat) (value : policy)
    (networks : list IPv4Network) :
  let lines := group_lines localAS (index, (value, networks)) in
  count_lines "  set as-path prepend " lines = (if Str.truthy (fst (fst value)) then 1 else 0)
  /\ count_lines "  set community add " lines = (if Str.truthy (snd (fst value)) then 1 else 0)
  /\ count_lines "  set origin " lines
     = (if negb (String.eqb (snd value) "igp") then 1 else 0)
  /\ count_lines "router bgp " lines = (if (localAS >? 0)%Z then 1 else 0)
  /\ count_lines "redistribute static route-map ROUTEGEN-RM" lines
     = (if (localAS >? 0)%Z then 1 else 0)
  /\ count_lines "ip route " lines = 0.
Proof.
  destruct value as [[value0 value1] value2]. cbn [fst snd]. unfold group_lines.
  set (entries := map (prefix_list_entry ("ROUTEGEN-PL" ++ Str.of_nat (index + 1)))
                      (enumerate networks)).
  assert (Hnone : forall start,
             (forall rest, String.prefix start ("ip prefix-list " ++ rest) = false) ->
             count_lines start entries = 0).
  { intros start Hstart. apply IosFacts.count_lines_none. intros line Hl.
    destruct (prefix_list_entry_start _ _ _ Hl) as [rest ->]. apply Hstart. }
  cbv zeta. rewrite !IosFacts.count_lines_app, !Hnone by reflexivity.
  rewrite !count_lines_cons.
  destruct (Str.truthy value0), (Str.truthy value1), (negb (String.eqb value2 "igp")),
    (localAS >? 0)%Z;
    rewrite ?count_lines_cons, ?IosFacts.prefix_append; cbn; repeat split; reflexivity.
Qed.

Lemma count_groups (start : string) (localAS : Z) (selected : policy -> bool)
    (groups : list (nat * (policy * list IPv4Network))) :
  (forall index value networks,
      count_lines start (group_lines localAS (index, (value, networks)))
      = if selected value then 1 else 0) ->
  count_lines start (flat_map (group_lines localAS) groups)
  = List.length (filter selected (map (fun g => fst (snd g)) groups)).
Proof.
  intros Hone. induction groups as [|[index [value networks]] groups IH]; [reflexivity|].
  cbn [flat_map map filter fst snd]. rewrite IosFacts.count_lines_app, Hone, IH.
  destruct (selected value); reflexivity.
Qed.

Lemma enumerate_group_keys (routes : list Route) :
  map (fun g : nat * (policy * list IPv4Network) => fst (snd g))
      (enumerate (group_routes routes))
  = first_seen (map policy_of routes).
Proof.
  rewrite <- (map_map snd fst), IosFacts.enumerate_values. apply IosFacts.group_keys.
Qed.

Lemma count_static_none (start : string) (vrf : string) (routes : list Route) :
  (forall rest, String.prefix start ("ip route " ++ rest) = false) ->
  count_lines start
    (map (static_route (if Str.truthy vrf then "ip route vrf " ++ vrf else "ip route"))
         routes) = 0.
Proof.
  intros Hstart. apply IosFacts.count_lines_none. intros line Hl.
  destruct (static_line_start _ _ _ Hl) as [rest ->]. apply Hstart.
Qed.

(** The lines of a given kind in the whole configuration, for a kind that
    no static-route line has and that a group has once or not at all. *)
Lemma count_kind (start : string) (selected : policy -> bool)
    (routes : list Route) (localAS : Z) (vrf : string) :
  (forall rest, String.prefix start ("ip route " ++ rest) = false) ->
  (forall index value networks,
      count_lines start (group_lines localAS (index, (value, networks)))
      = if selected value then 1 else 0) ->
  count_lines start (config_lines routes localAS vrf)
  = List.length (filter selected (first_seen (map policy_of routes))).
Proof.
  intros Hstatic Hone. unfold config_lines.
  rewrite IosFacts.count_lines_app, (count_static_none _ _ _ Hstatic).
  rewrite (count_groups start localAS selected _ Hone), enumerate_group_keys.
  reflexivity.
Qed.

(** X15: the IOS configuration holds one [set as-path prepend] line for each
    group whose joined AS path is not empty, one [set community add] line for
    each group whose joined communities are not empty and one [set origin]
    line for each group whose origin is not [igp]; a group with an empty
    operand or the origin [igp] gets no such line. *)
Theorem ios_set_clauses (routes : list Route) (localAS : Z) (vrf : string) :
  count_lines "  set as-path prepend " (config_lines routes localAS vrf)
  = List.length (filter (fun key : policy => Str.truthy (fst (fst key)))
                        (first_seen (map policy_of routes)))
  /\ count_lines "  set community add " (config_lines routes localAS vrf)
     = List.length (filter (fun key : policy => Str.truthy (snd (fst key)))
                           (first_seen (map policy_of routes)))
  /\ count_lines "  set origin " (config_lines routes localAS vrf)
     = List.length (filter (fun key : policy => negb (String.eqb (snd key) "igp"))
                           (first_seen (map policy_of routes))).
Proof.
  repeat split; apply count_kind; try reflexivity;
    intros index value networks; apply (group_lines_kinds localAS index value networks).
Qed.

Lemma filter_constant {A : Type} (b : bool) (l : list A) :
  List.length (filter (fun _ => b) l) = if b then List.length l else 0.
Proof.
  destruct b; induction l as [|x l IH]; cbn; auto.
Qed.


(** X17: the IOS configuration starts with the static routes, one
    [ip route ... null0] line for each input route in input order, and no
    other line starts with [ip route]. *)
Theorem ios_static_routes (routes : list Route) (localAS : Z) (vrf : string) :
  firstn (List.length routes) (config_lines routes localAS vrf)
  = map (static_route (if Str.truthy vrf then "ip route vrf " ++ vrf else "ip route")) routes
  /\ count_lines "ip route " (config_lines routes localAS vrf) = List.length routes.
Proof.
  unfold config_lines. split.
  - rewrite <- (length_map
                  (static_route (if Str.truthy vrf then "ip route vrf " ++ vrf else "ip route"))
                  routes) at 1.
    rewrite <- (Nat.add_0_r (List.length (map _ routes))), firstn_app_2.
    cbn [firstn]. apply app_nil_r.
  - rewrite IosFacts.count_lines_app, IosFacts.count_lines_all.
    + rewrite length_map.
      rewrite (count_groups "ip route " localAS (fun _ => false)).
      * rewrite filter_constant. lia.
      * intros index value networks.
        apply (group_lines_kinds localAS index value networks).
    + intros line Hl. destruct (static_line_start _ _ _ Hl) as [rest ->].
      apply IosFacts.prefix_append.
Qed.

End IosLines.

(* ================================================================= *)
(** ** The static route of a network *)

Module NetFacts.

Import Str.

Lemma has_char_append (c : ascii) (s t : string) :
  has_char c (s ++ t) = has_char c s || has_char c t.
Proof.
  induction s as [|a s IH]; [reflexivity|].
  cbn [append]. rewrite !StrFacts.has_char_cons, IH, orb_assoc. reflexivity.
Qed.

Lemma string_of_uint_slash_free (d : Decimal.uint) :
  has_char "/" (NilEmpty.string_of_uint d) = false.
Proof.
  induction d; cbn [NilEmpty.string_of_uint];
    try reflexivity; rewrite StrFacts.has_char_cons, IHd; reflexivity.
Qed.

Lemma dotted_slash_free (address : N) : has_char "/" (dotted address) = false.
Proof.
  unfold dotted, of_N.
  rewrite !has_char_append, !string_of_uint_slash_free. reflexivity.
Qed.

(** X18: splitting [with_netmask] at the slash and joining with a blank
    gives the address and the mask in dotted form, so that the static route
    of a network reads [<base> <address> <mask> null0]. *)
Theorem static_route_format (baseRouteCommand : string) (route : Route) :
  Ios.static_route baseRouteCommand route
  = baseRouteCommand ++ " " ++ dotted (network_address (network route))
    ++ " " ++ dotted (netmask (prefixlen (network route))) ++ " null0".
Proof.
  unfold Ios.static_route, with_netmask.
  change (dotted (network_address (network route)) ++ "/"
          ++ dotted (netmask (prefixlen (network route))))
    with (dotted (network_address (network route))
          ++ String "/" (dotted (netmask (prefixlen (network route))))).
  rewrite (StrFacts.split_at_first "/" _ _ (dotted_slash_free _)).
  rewrite (StrFacts.split_without "/" _ (dotted_slash_free _)).
  cbn [join]. f_equal. f_equal.
  induction (dotted (network_address (network route))) as [|a s IH]; [reflexivity|].
  cbn [append]. f_equal. exact IH.
Qed.

End NetFacts.

(* ================================================================= *)
(** ** Reading [routeDict] *)

Module RouteDictFacts.

Import Ios.

Lemma routeDict_get_groups (keys : list policy) (g : policy -> list IPv4Network)
    (key : policy) :
  routeDict_get (map (fun k => (k, g k)) keys) key
  = if existsb (policy_eqb key) keys then Some (g key) else None.
Proof.
  induction keys as [|k keys IH]; [reflexivity|].
  cbn [map routeDict_get existsb]. rewrite (IosFacts.policy_eqb_sym key k).
  destruct (policy_eqb k key) eqn:E; [|exact IH].
  apply IosFacts.policy_eqb_eq in E. subst. reflexivity.
Qed.

Lemma existsb_first_seen (keys : list policy) (key : policy) :
  existsb (policy_eqb key) (first_seen keys) = existsb (policy_eqb key) keys.
Proof.
  destruct (existsb (policy_eqb key) keys) eqn:E.
  - apply IosFacts.existsb_policy, IosFacts.first_seen_in, IosFacts.existsb_policy, E.
  - apply IosFacts.existsb_policy_false. rewrite IosFacts.first_seen_in.
    apply IosFacts.existsb_policy_false, E.
Qed.

(** X22: after the grouping loop, [routeDict] has an entry exactly for the
    keys of the input routes, and the entry of a key holds the networks of
    the routes with that key in input order; in particular the network of
    every route is in the entry of its key. *)
Theorem routeDict_entries (routes : list Route) (key : policy) :
  routeDict_get (group_routes routes) key
  = (if existsb (policy_eqb key) (map policy_of routes)
     then Some (members routes key) else None)
  /\ forall route : Route,
       In route routes -> In (network route) (members routes (policy_of route)).
Proof.
  split.
  - rewrite IosFacts.group_routes_by_key. unfold groups_by_key.
    rewrite (routeDict_get_groups _ (members routes)), existsb_first_seen. reflexivity.
  - intros route Hr. unfold members. apply in_map, filter_In.
    split; [exact Hr|apply IosFacts.policy_eqb_refl].
Qed.

End RouteDictFacts.

Lemma routeDict_entries_witness :
  In (network Examples.route_c)
     (members [Examples.route_a; Examples.route_b; Examples.route_c]
              (Ios.policy_of Examples.route_c)).
Proof.
  apply (RouteDictFacts.routeDict_entries
           [Examples.route_a; Examples.route_b; Examples.route_c]
           (Ios.policy_of Examples.route_c)).
  right. right. left. reflexivity.
Defined.

(* ================================================================= *)
(** ** The lines of the Junos configuration *)

Module JunosLines.

Import Junos.

Lemma append_assoc (s t u : string) : (s ++ t) ++ u = s ++ t ++ u.
Proof.
  induction s as [|a s IH]; [reflexivity|]. cbn [append]. rewrite IH. reflexivity.
Qed.

Lemma baseRouteCommand_start (vrf : string) :
  baseRouteCommand vrf = junos_route_start vrf.
Proof.
  unfold baseRouteCommand, baseCommand, junos_route_start.
  destruct (Str.truthy vrf); [|reflexivity].
  cbn [Str.join]. rewrite append_assoc. reflexivity.
Qed.

Lemma prefix_cancel (a b c : string) :
  String.prefix (a ++ b) (a ++ c) = String.prefix b c.
Proof.
  induction a as [|x a IH]; [reflexivity|].
  cbn [append String.prefix]. destruct (ascii_dec x x); [exact IH|contradiction].
Qed.

Lemma route_command_start (vrf : string) (route : Route) :
  String.prefix (junos_route_start vrf ++ " " ++ to_str (network route) ++ " discard")
                (route_command vrf route) = true.
Proof.
  unfold route_command. cbv zeta. rewrite baseRouteCommand_start, !append_assoc.
  rewrite !prefix_cancel. apply IosFacts.prefix_append.
Qed.

Lemma prefix_of_prefix (s t line : string) :
  String.prefix (s ++ t) line = true -> String.prefix s line = true.
Proof.
  revert line. induction s as [|a s IH]; intros line H.
  - destruct line; reflexivity.
  - destruct line as [|b line]; [discriminate H|].
    cbn [append String.prefix] in *.
    destruct (ascii_dec a b); [apply IH, H|discriminate H].
Qed.

Lemma policy_line_start (vrf rest : string) :
  String.prefix (junos_route_start vrf) (basePolicyCommand ++ rest) = false.
Proof.
  unfold junos_route_start. destruct (Str.truthy vrf); reflexivity.
Qed.

(** X20: the Junos configuration has one line for each route, in input
    order, followed by the two lines of the policy statement ROUTEGEN-POLICY.
    The line of a route starts with the static-route command, which names
    the routing instance when [vrf] is given, then the network and
    [discard]; the route lines are exactly the lines that start with that
    command. *)
Theorem junos_route_lines (routes : list Route) (vrf bgpGroup : string) :
  let lines := fst (final_state routes vrf bgpGroup) in
  List.length lines = List.length routes + 2
  /\ Forall2 (fun route line =>
                String.prefix (junos_route_start vrf ++ " " ++ to_str (network route)
                               ++ " discard") line = true)
             routes (firstn (List.length routes) lines)
  /\ skipn (List.length routes) lines
     = [ "set policy-options policy-statement ROUTEGEN-POLICY term 1 from protocol static";
         "set policy-options policy-statement ROUTEGEN-POLICY term 1 then accept" ]
  /\ filter (String.prefix (junos_route_start vrf)) lines
     = firstn (List.length routes) lines.
Proof.
  cbv zeta. rewrite JunosFacts.emitted_lines.
  assert (Hfirst : firstn (List.length routes)
                     (map (route_command vrf) routes
                      +++ [ basePolicyCommand ++ " from protocol static";
                            basePolicyCommand ++ " then accept" ])
                   = map (route_command vrf) routes).
  { rewrite <- (length_map (route_command vrf) routes) at 1.
    rewrite <- (Nat.add_0_r (List.length (map _ routes))), firstn_app_2.
    cbn [firstn]. apply app_nil_r. }
  rewrite Hfirst. clear Hfirst. repeat split.
  - rewrite length_app, length_map. reflexivity.
  - induction routes as [|route routes IH]; cbn [map]; constructor;
      [apply route_command_start|apply IH].
  - rewrite <- (length_map (route_command vrf) routes) at 1.
    rewrite skipn_app, skipn_all, Nat.sub_diag. reflexivity.
  - rewrite filter_app, IosFacts.filter_everything, IosFacts.filter_nothing.
    + apply app_nil_r.
    + intros line [<-|[<-|[]]]; apply policy_line_start.
    + intros line Hl. apply in_map_iff in Hl. destruct Hl as [route [<- _]].
      apply (prefix_of_prefix _ _ _ (route_command_start vrf route)).
Qed.

End JunosLines.

(* ================================================================= *)
(** ** Empty values and unchecked sections *)

Section EdgeFacts.

Variable re_fullmatch : string -> string -> option bool.

(** X21: an empty list is accepted against any schema and type template,
    and an empty mapping is accepted by a mapping schema node exactly when
    the list under [required] is empty. *)
Theorem empty_values (schema : list (string * pyval)) (names : list string)
    (types any_schema any_types : pyval) :
  dict_get schema "required" = Some (VList (map vstr names)) ->
  basic_validation_caller re_fullmatch (VDict []) (VDict schema) types
  = Ok (match names with [] => true | _ :: _ => false end)
  /\ basic_validation_caller re_fullmatch (VList []) any_schema any_types = Ok true.
Proof.
  intros Hreq. split; [|reflexivity].
  rewrite caller_mapping.
  rewrite (basic_validation_dict_required [] schema names eq_refl Hreq).
  destruct names; reflexivity.
Qed.

(** X23: [validateConfig] looks at the [basic] section only: two triples of
    documents with the same [basic] entries have the same outcome, whatever
    their other sections ([mrt], [prefixes], [bgp], ...) hold. *)
Theorem validateConfig_only_basic (config schema types config' schema' types' : pyval) :
  getitem config "basic" = getitem config' "basic" ->
  getitem schema "basic" = getitem schema' "basic" ->
  getitem types "basic" = getitem types' "basic" ->
  validateConfig re_fullmatch config schema types
  = validateConfig re_fullmatch config' schema' types'.
Proof.
  intros Hc Hs Ht.
  unfold validateConfig, enabledTests, run_tests, validate_basic, validate_base.
  rewrite Hc, Hs, Ht. reflexivity.
Qed.

End EdgeFacts.

Lemma empty_values_witness :
  basic_validation_caller Re.fullmatch (VDict []) Examples.basic_schema Examples.basic_types
  = Ok false.
Proof.
  apply (empty_values Re.fullmatch
           [("required", VList [vstr "hostname"]);
            ("hostname", VDict [("regex", vstr "[a-z0-9-]+")]);
            ("asn", VDict [("regex", vstr "[0-9]+")])]
           ["hostname"] Examples.basic_types vnone vnone).
  reflexivity.
Defined.

Lemma validateConfig_only_basic_witness :
  validateConfig Re.fullmatch
    (VDict [("basic", Examples.basic_section); ("bgp", vstr "not a mapping")])
    Examples.schema Examples.types
  = validateConfig Re.fullmatch Examples.config Examples.schema Examples.types.
Proof.
  apply (validateConfig_only_basic Re.fullmatch); reflexivity.
Defined.

(* ================================================================= *)
(** ** What the validator accepts *)

Lemma tuple_eqb_sym (a b : list (string * scalar)) : tuple_eqb a b = tuple_eqb b a.
Proof.
  revert b. induction a as [|[k x] a IH]; intros [|[k' x'] b]; try reflexivity.
  cbn [tuple_eqb]. rewrite (String.eqb_sym k k'), (scalar_eqb_sym x x'), (IH b).
  reflexivity.
Qed.

Lemma mapM_hashable_inv (elements : list pyval) (members : list scalar) :
  mapM hashable elements = Ok members -> elements = map VScalar members.
Proof.
  revert members. induction elements as [|v elements IH]; intros members H.
  - inversion H. reflexivity.
  - destruct v as [x| |]; try discriminate. cbn [mapM hashable] in H.
    destruct (mapM hashable elements) as [rest|]; [|discriminate].
    inversion H. cbn [map]. f_equal. apply IH. reflexivity.
Qed.

Lemma mapM_hashable_raises (elements : list pyval) (e : exn) :
  mapM hashable elements = Raise e -> e = TypeError.
Proof.
  induction elements as [|v elements IH]; [discriminate|].
  destruct v as [x| |]; cbn [mapM hashable]; try (intros H; inversion H; reflexivity).
  destruct (mapM hashable elements) as [rest|e']; [discriminate|].
  intros H. inversion H. subst. apply IH. reflexivity.
Qed.

Lemma items_tuple_inv (d : pyval) (t : list (string * scalar)) :
  items_tuple d = Ok t -> d = dict_of t.
Proof.
  destruct d as [x|items|entries]; try discriminate.
  unfold items_tuple, dict_of. revert t.
  induction entries as [|[k v] entries IH]; intros t H.
  - inversion H. reflexivity.
  - cbn [mapM fst snd] in H. destruct v as [x| |]; try discriminate. cbn [hashable] in H.
    destruct (mapM _ entries) as [rest|]; [|discriminate].
    inversion H. cbn [map fst snd]. specialize (IH rest eq_refl).
    inversion IH as [IH']. rewrite <- IH'. reflexivity.
Qed.

Lemma mapM_items_tuple_inv (elements : list pyval) (ts : list (list (string * scalar))) :
  mapM items_tuple elements = Ok ts -> elements = map dict_of ts.
Proof.
  revert ts. induction elements as [|d elements IH]; intros ts H.
  - inversion H. reflexivity.
  - cbn [mapM] in H. destruct (items_tuple d) as [t|] eqn:Ht; [|discriminate].
    destruct (mapM items_tuple elements) as [rest|]; [|discriminate].
    inversion H. cbn [map]. f_equal; [apply items_tuple_inv, Ht|apply IH; reflexivity].
Qed.

(** The duplicate test in words. *)
Lemma duplicate_test_iff (elements : list pyval) :
  basic_validation_list elements = Ok true <-> no_duplicates elements.
Proof.
  unfold basic_validation_list, no_duplicates. split.
  - destruct (mapM hashable elements) as [members|e] eqn:Hh.
    + apply mapM_hashable_inv in Hh. subst elements.
      rewrite length_map, (set_of_keeps_all scalar_eqb scalar_eqb_sym).
      destruct (pairwise_distinct scalar_eqb members) eqn:E; [|discriminate].
      intros _. left. exists members. split; [reflexivity|exact E].
    + rewrite (mapM_hashable_raises _ _ Hh) in *.
      destruct (mapM items_tuple elements) as [ts|] eqn:Ht; [|discriminate].
      apply mapM_items_tuple_inv in Ht. subst elements. cbn [bind].
      rewrite length_map, (set_of_keeps_all tuple_eqb tuple_eqb_sym).
      destruct (pairwise_distinct tuple_eqb ts) eqn:E; [|discriminate].
      intros _. right. destruct ts as [|t ts]; [discriminate Hh|].
      exists t, ts. split; [reflexivity|exact E].
  - intros [[members [-> E]]|[t [ts [-> E]]]].
    + rewrite mapM_hashable_scalars, length_map,
        (set_of_keeps_all scalar_eqb scalar_eqb_sym), E. reflexivity.
    + rewrite mapM_hashable_dicts, mapM_items_tuple. cbn [bind].
      rewrite length_map, (set_of_keeps_all tuple_eqb tuple_eqb_sym), E. reflexivity.
Qed.

Lemma required_present (entries : list (string * pyval)) (names : list pyval) :
  (exists present, mapM (fun x => in_dict x entries) names = Ok present
                   /\ all present = true)
  <-> Forall (fun x => exists name, x = vstr name /\ dict_has entries name = true) names.
Proof.
  induction names as [|x names IH].
  - split; [constructor|]. intros _. exists []. split; reflexivity.
  - split.
    + intros [present [Hm Hall]]. cbn [mapM] in Hm.
      destruct (in_dict x entries) as [b|] eqn:Hx; [|discriminate].
      destruct (mapM (fun x => in_dict x entries) names) as [rest|] eqn:Hr; [|discriminate].
      inversion Hm. subst present. unfold all in Hall. cbn [forallb] in Hall.
      apply andb_true_iff in Hall. destruct Hall as [Hb Hrest]. subst b.
      constructor.
      * destruct x as [[| | |name]| |]; try discriminate.
        exists name. split; [reflexivity|]. inversion Hx. reflexivity.
      * apply IH. exists rest. split; [reflexivity|exact Hrest].
    + intros H. inversion H as [|? ? [name [-> Hname]] Hnames]; subst.
      apply IH in Hnames. destruct Hnames as [rest [Hr Hall]].
      exists (true :: rest). cbn [mapM in_dict vstr]. rewrite Hname, Hr.
      split; [reflexivity|exact Hall].
Qed.

(** The test of the keys in words. *)
Lemma keys_test_iff (entries : list (string * pyval)) (schema : pyval) :
  basic_validation_dict entries schema = Ok true <-> keys_ok entries schema.
Proof.
  unfold keys_ok. split.
  - destruct schema as [x|items|declared].
    + unfold basic_validation_dict.
      destruct (mapM (fun x0 => key_in x0 (VScalar x)) (keys entries)) as [allowed|];
        [|discriminate].
      cbn [bind]. destruct (negb (all allowed)); discriminate.
    + unfold basic_validation_dict.
      destruct (mapM (fun x => key_in x (VList items)) (keys entries)) as [allowed|];
        [|discriminate].
      cbn [bind]. destruct (negb (all allowed)); discriminate.
    + unfold basic_validation_dict, key_in. rewrite mapM_total. cbn [bind].
      rewrite all_map.
      destruct (forallb (dict_has declared) (keys entries)) eqn:Hkeys; [|discriminate].
      cbn [negb]. unfold getitem.
      destruct (dict_get declared "required") as [required|] eqn:Hreq; [|discriminate].
      cbn [bind]. destruct (iter required) as [names|] eqn:Hiter; [|discriminate].
      cbn [bind].
      destruct (mapM (fun x => in_dict x entries) names) as [present|] eqn:Hm;
        [|discriminate].
      cbn [bind]. destruct (all present) eqn:Hall; [|discriminate].
      intros _. exists declared, required, names.
      split; [reflexivity|].
      split; [apply Forall_forall; apply forallb_forall; exact Hkeys|].
      split; [exact Hreq|]. split; [exact Hiter|].
      apply required_present. exists present. split; assumption.
  - intros [declared [required [names [-> [Hkeys [Hreq [Hiter Hnames]]]]]]].
    apply required_present in Hnames. destruct Hnames as [present [Hm Hall]].
    unfold basic_validation_dict, key_in. rewrite mapM_total. cbn [bind].
    rewrite all_map. rewrite Forall_forall in Hkeys. apply forallb_forall in Hkeys.
    rewrite Hkeys.
    cbn [negb]. unfold getitem. rewrite Hreq. cbn [bind]. rewrite Hiter. cbn [bind].
    rewrite Hm. cbn [bind]. rewrite Hall. reflexivity.
Qed.

Lemma pyval_induction (P : pyval -> Prop) :
  (forall x, P (VScalar x)) ->
  (forall items, Forall P items -> P (VList items)) ->
  (forall entries, Forall (fun entry => P (snd entry)) entries -> P (VDict entries)) ->
  forall v, P v.
Proof.
  intros Hscalar Hlist Hdict. fix IH 1. intros [x|items|entries].
  - apply Hscalar.
  - apply Hlist. induction items as [|v items IHitems]; constructor;
      [apply IH|exact IHitems].
  - apply Hdict. induction entries as [|[k v] entries IHentries]; constructor;
      [apply IH|exact IHentries].
Qed.

Section AcceptFacts.

Variable re_fullmatch : string -> string -> option bool.

(** The check of one item in words, the recursive call left as it is. *)
Lemma verdict_true_iff (value dataSchema dataType : pyval) :
  verdict re_fullmatch value dataSchema dataType = Ok true
  <-> isinstance value (type_of dataType) = true
      /\ (is_container dataType = true ->
          basic_validation_caller re_fullmatch value dataSchema dataType = Ok true)
      /\ (is_container dataType = false -> leaf_ok re_fullmatch value dataSchema).
Proof.
  unfold verdict.
  destruct (isinstance value (type_of dataType)) eqn:Hinst.
  - destruct (is_container dataType) eqn:Hleaf.
    + unfold check_item. rewrite Hinst, Hleaf. cbn [negb]. split.
      * intros H. split; [reflexivity|]. split; [|discriminate]. intros _.
        destruct (basic_validation_caller re_fullmatch value dataSchema dataType)
          as [[|]|]; try discriminate. reflexivity.
      * intros [_ [H _]]. rewrite (H eq_refl). reflexivity.
    + destruct (leaf_content_scalar _ _ Hleaf Hinst) as [x ->].
      rewrite (check_item_leaf re_fullmatch _ x dataSchema dataType Hleaf Hinst).
      unfold leaf_ok. split.
      * intros H. split; [reflexivity|]. split; [discriminate|]. intros _.
        destruct (getitem dataSchema "regex") as [pattern|]; [|discriminate].
        apply fullmatch_true in H. destruct H as [p [-> Hp]].
        exists x, p. repeat split. exact Hp.
      * intros [_ [_ H]]. destruct (H eq_refl) as [y [p [Hy [Hget Hp]]]].
        inversion Hy. subst y. rewrite Hget. apply fullmatch_true.
        exists p. split; [reflexivity|exact Hp].
  - rewrite (check_item_not_instance re_fullmatch _ _ _ _ Hinst).
    split; [discriminate|]. intros [H _]. discriminate.
Qed.

(** The validator returns [True] exactly on the accepted documents. *)
Lemma accepted_iff (config : pyval) :
  forall schema types : pyval,
    basic_validation_caller re_fullmatch config schema types = Ok true
    <-> Accepted re_fullmatch config schema types.
Proof.
  induction config as [x|items IH|entries IH] using pyval_induction;
    intros schema types.
  - split; [discriminate|]. intros H. inversion H.
  - rewrite sequence_loop_accepts, duplicate_test_iff. rewrite Forall_forall in IH.
    split.
    + intros [Hdup Hall]. constructor; [exact Hdup|].
      rewrite Forall_forall in *. intros v Hv.
      destruct (Hall v Hv) as [s [t [Hs [Ht Hverdict]]]].
      apply verdict_true_iff in Hverdict. destruct Hverdict as [Hinst [Hrec Hleaf]].
      exists s, t. repeat split; try assumption.
      intros Hc. apply (IH v Hv), Hrec, Hc.
    + intros H. inversion H as [|? ? ? Hdup Hall]; subst. split; [exact Hdup|].
      rewrite Forall_forall in *. intros v Hv.
      destruct (Hall v Hv) as [s [t [Hs [Ht [Hinst [Hrec Hleaf]]]]]].
      exists s, t. repeat split; try assumption.
      apply verdict_true_iff. repeat split; try assumption.
      intros Hc. apply (IH v Hv), Hrec, Hc.
  - rewrite mapping_loop_accepts, keys_test_iff. rewrite Forall_forall in IH.
    split.
    + intros [Hkeys Hall]. constructor; [exact Hkeys|].
      rewrite Forall_forall in *. intros kv Hkv.
      destruct (Hall kv Hkv) as [s [t [Hs [Ht Hverdict]]]].
      apply verdict_true_iff in Hverdict. destruct Hverdict as [Hinst [Hrec Hleaf]].
      exists s, t. repeat split; try assumption.
      intros Hc. apply (IH kv Hkv), Hrec, Hc.
    + intros H. inversion H as [? ? ? Hkeys Hall|]; subst. split; [exact Hkeys|].
      rewrite Forall_forall in *. intros kv Hkv.
      destruct (Hall kv Hkv) as [s [t [Hs [Ht [Hinst [Hrec Hleaf]]]]]].
      exists s, t. repeat split; try assumption.
      apply verdict_true_iff. repeat split; try assumption.
      intros Hc. apply (IH kv Hkv), Hrec, Hc.
Qed.

(** X1: the validator returns [True] for a mapping exactly when the schema
    node is a mapping that declares every key of the value, every name under
    its [required] entry is a key of the value, and every entry has a node
    in the schema and in the type template, has the runtime type of its
    template node, and is accepted in turn when the template node is a
    mapping or a list, or else is a scalar whose string form fully matches
    the regex of its schema node. *)
Theorem mapping_accepted_iff (entries : list (string * pyval)) (schema types : pyval) :
  basic_validation_caller re_fullmatch (VDict entries) schema types = Ok true
  <-> keys_ok entries schema
      /\ Forall (fun entry : string * pyval =>
                   exists dataSchema dataType : pyval,
                     getitem schema (fst entry) = Ok dataSchema
                     /\ getitem types (fst entry) = Ok dataType
                     /\ item_ok re_fullmatch (snd entry) dataSchema dataType)
                entries.
Proof.
  rewrite accepted_iff. split.
  - intros H. inversion H as [? ? ? Hkeys Hall|]; subst. split; assumption.
  - intros [Hkeys Hall]. constructor; assumption.
Qed.

(** X2: the validator returns [True] for a list exactly when the list has no
    duplicates (scalars no two of which are equal under [==], or mappings of
    scalars no two of which have the same entries in the same order) and
    every element, checked against the first element of the schema and of
    the type template, has the runtime type of the template node and is
    accepted in turn when that node is a mapping or a list, or else is a
    scalar whose string form fully matches the regex of the schema node. *)
Theorem sequence_accepted_iff (elements : list pyval) (schema types : pyval) :
  basic_validation_caller re_fullmatch (VList elements) schema types = Ok true
  <-> no_duplicates elements
      /\ Forall (fun element : pyval =>
                   exists dataSchema dataType : pyval,
                     getitem0 schema = Ok dataSchema
                     /\ getitem0 types = Ok dataType
                     /\ item_ok re_fullmatch element dataSchema dataType)
                elements.
Proof.
  rewrite accepted_iff. split.
  - intros H. inversion H as [|? ? ? Hdup Hall]; subst. split; assumption.
  - intros [Hdup Hall]. constructor; assumption.
Qed.

End AcceptFacts.
